(** * Feedback backend router: a shallow embedding and its properties

    The development follows
    [plugins/feedback-backend/src/service/router.ts]: the six HTTP
    handlers that [createRouter] registers are written as computations in
    a small state-and-exception monad whose state holds the feedback
    table, the response slot of the request and the trace of the calls
    the handler makes to its collaborators (catalog, store, tracker,
    mailer, logger, response object).

    Conventions.
    - A JavaScript string is a [string]: a sequence of characters with
      code points up to U+00FF, one [ascii] each. White space is what
      the language counts as such in that range: TAB, LF, VT, FF, CR,
      SP and the no-break space U+00A0. Letter case is the one of that
      range: lower-casing covers all its letters; upper-casing, which
      the router uses only to compare with the words JIRA and MAIL,
      covers all but the three letters whose upper case lies outside the
      range.
    - A JavaScript number is an IEEE 754 binary64 [float].
    - An optional property ([undefined] when absent) is an [option].
    - A rejected promise or a thrown [TypeError] is the [Threw] outcome. *)

From Stdlib Require Import ZArith String Ascii List Bool Lia.
From Stdlib Require Import PrimFloat FloatOps SpecFloat.
From stdpp Require Import base option list gmap strings.

Open Scope string_scope.
Open Scope list_scope.

(** ** JavaScript strings and numbers *)

Module JS.

Definition chr (n : nat) : string := String (ascii_of_nat n) EmptyString.

(** Line feed, carriage return and the double quote. *)
Definition nl : string := chr 10.
Definition cr : string := chr 13.
Definition dq : string := chr 34.

(** [WhiteSpace] and [LineTerminator] of the language up to U+00FF:
    U+0009 to U+000D, U+0020 and U+00A0. *)
Definition is_ws (c : ascii) : bool :=
  let n := nat_of_ascii c in
  Nat.eqb n 32 || (Nat.leb 9 n && Nat.leb n 13) || Nat.eqb n 160.

Fixpoint trimStart (s : string) : string :=
  match s with
  | EmptyString => EmptyString
  | String c s' => if is_ws c then trimStart s' else s
  end.

(** [String.prototype.trim] *)
Definition trim (s : string) : string :=
  String.rev (trimStart (String.rev (trimStart s))).

(** Upper case of a character: a to z, and U+00E0 to U+00FE but for the
    division sign U+00F7. The upper case of U+00B5, U+00DF and U+00FF
    lies outside the range of the model (for U+00DF it is two letters
    S); these three are left as they are: none of them gives one of
    the letters A to Z. *)
Definition upper_ascii (c : ascii) : ascii :=
  let n := nat_of_ascii c in
  if (Nat.leb 97 n && Nat.leb n 122)
     || (Nat.leb 224 n && Nat.leb n 254 && negb (Nat.eqb n 247))
  then ascii_of_nat (n - 32) else c.

(** Lower case of a character: A to Z, and U+00C0 to U+00DE but for the
    multiplication sign U+00D7. *)
Definition lower_ascii (c : ascii) : ascii :=
  let n := nat_of_ascii c in
  if (Nat.leb 65 n && Nat.leb n 90)
     || (Nat.leb 192 n && Nat.leb n 222 && negb (Nat.eqb n 215))
  then ascii_of_nat (n + 32) else c.

Fixpoint map_chars (f : ascii -> ascii) (s : string) : string :=
  match s with
  | EmptyString => EmptyString
  | String c s' => String (f c) (map_chars f s')
  end.

(** [String.prototype.toUpperCase] and [toLowerCase] *)
Definition toUpperCase : string -> string := map_chars upper_ascii.
Definition toLowerCase : string -> string := map_chars lower_ascii.

(** [s.split(sep)] for a separator of one character; [cur] holds the
    current piece, reversed. *)
Fixpoint split_go (sep : ascii) (cur : string) (s : string) : list string :=
  match s with
  | EmptyString => [String.rev cur]
  | String c s' =>
      if Ascii.eqb c sep then String.rev cur :: split_go sep EmptyString s'
      else split_go sep (String c cur) s'
  end.

Definition split (sep : ascii) (s : string) : list string :=
  split_go sep EmptyString s.

(** [xs.join(sep)] *)
Fixpoint join (sep : string) (xs : list string) : string :=
  match xs with
  | [] => EmptyString
  | [x] => x
  | x :: rest => x +:+ sep +:+ join sep rest
  end.

(** [s.includes(needle)]: [needle] occurs in [s]. *)
Fixpoint includes (needle s : string) : bool :=
  String.prefix needle s ||
  match s with
  | EmptyString => false
  | String _ s' => includes needle s'
  end.

(** An interpolation [${x}] inside a template literal. *)
Definition tpl (x : option string) : string := default "undefined" x.

(** Truthiness of a string-or-undefined value. *)
Definition truthy (x : option string) : bool :=
  match x with
  | Some s => negb (String.eqb s EmptyString)
  | None => false
  end.

(** [x?.split('/')[1]] *)
Definition second_segment (x : option string) : option string :=
  match x with
  | Some s => split "/" s !! 1%nat
  | None => None
  end.

(** *** Numbers *)

(** The double nearest to an integer (ties to even). *)
Definition of_Z (z : Z) : float :=
  SF2Prim (binary_normalize prec emax z 0 false).

Definition digit (c : ascii) : option Z :=
  let n := nat_of_ascii c in
  if Nat.leb 48 n && Nat.leb n 57 then Some (Z.of_nat (n - 48)) else None.

Fixpoint digits_go (acc : Z) (seen : bool) (s : string) : option Z :=
  match s with
  | EmptyString => if seen then Some acc else None
  | String c s' =>
      match digit c with
      | Some d => digits_go (10 * acc + d) true s'
      | None => if seen then Some acc else None
      end
  end.

(** [parseInt(s, 10)]: leading white space, an optional sign, the
    longest run of decimal digits; [NaN] when there is no digit. *)
Definition parseInt (s : string) : float :=
  let s := trimStart s in
  let '(neg, s) :=
    match s with
    | String "-" r => (true, r)
    | String "+" r => (false, r)
    | _ => (false, s)
    end in
  match digits_go 0 false s with
  | None => nan
  | Some z => if neg then PrimFloat.opp (of_Z z) else of_Z z
  end.

End JS.

(** ** Data model *)

(** [FeedbackModel]: every property is optional in a request body. *)
Record FeedbackModel := mkFeedback {
  feedbackId : option string;
  summary : option string;
  projectId : option string;
  description : option string;
  url : option string;
  tag : option string;
  ticketUrl : option string;
  feedbackType : option string;
  createdAt : option string;
  createdBy : option string;
  updatedAt : option string;
  updatedBy : option string
}.

(** Assignments [reqData.f = v]. *)
Definition set_feedbackId (v : option string) (r : FeedbackModel) : FeedbackModel :=
  mkFeedback v (summary r) (projectId r) (description r) (url r) (tag r)
    (ticketUrl r) (feedbackType r) (createdAt r) (createdBy r) (updatedAt r) (updatedBy r).

Definition set_summary (v : option string) (r : FeedbackModel) : FeedbackModel :=
  mkFeedback (feedbackId r) v (projectId r) (description r) (url r) (tag r)
    (ticketUrl r) (feedbackType r) (createdAt r) (createdBy r) (updatedAt r) (updatedBy r).

Definition set_description (v : option string) (r : FeedbackModel) : FeedbackModel :=
  mkFeedback (feedbackId r) (summary r) (projectId r) v (url r) (tag r)
    (ticketUrl r) (feedbackType r) (createdAt r) (createdBy r) (updatedAt r) (updatedBy r).

Definition set_ticketUrl (v : option string) (r : FeedbackModel) : FeedbackModel :=
  mkFeedback (feedbackId r) (summary r) (projectId r) (description r) (url r) (tag r)
    v (feedbackType r) (createdAt r) (createdBy r) (updatedAt r) (updatedBy r).

Definition set_createdAt (v : option string) (r : FeedbackModel) : FeedbackModel :=
  mkFeedback (feedbackId r) (summary r) (projectId r) (description r) (url r) (tag r)
    (ticketUrl r) (feedbackType r) v (createdBy r) (updatedAt r) (updatedBy r).

Definition set_updatedAt (v : option string) (r : FeedbackModel) : FeedbackModel :=
  mkFeedback (feedbackId r) (summary r) (projectId r) (description r) (url r) (tag r)
    (ticketUrl r) (feedbackType r) (createdAt r) (createdBy r) v (updatedBy r).

Definition set_updatedBy (v : option string) (r : FeedbackModel) : FeedbackModel :=
  mkFeedback (feedbackId r) (summary r) (projectId r) (description r) (url r) (tag r)
    (ticketUrl r) (feedbackType r) (createdAt r) (createdBy r) (updatedAt r) v.

(** The part of a catalog [Entity] the router reads: [kind],
    [metadata.namespace], [metadata.name], [metadata.title],
    [metadata.annotations] and [spec.profile.email]. *)
Record Profile := mkProfile { email : option string }.

Record EntityMeta := mkMeta {
  namespace : option string;
  name : string;
  title : option string;
  annotations : option (gmap string string)
}.

Record Entity := mkEntity {
  kind : string;
  metadata : EntityMeta;
  profile : option Profile
}.

(** One entry of [feedback.integrations.jira]. *)
Record JiraConfig := mkJira { host : string; token : string }.

(** The configuration keys the router reads; a key that is not
    configured is [None] and reading it throws. *)
Record Config := mkConfig {
  app_title : option string;
  integrations_jira : option (list JiraConfig)
}.

Record TicketDetails := mkTicket { status : string; assignee : string }.

(** The argument of [mailer.sendMail]. *)
Record Mail := mkMail {
  to : option string;
  replyTo : option string;
  subject : string;
  body : string
}.

(** A value of the listing that [getAllFeedbacks] returns. *)
Inductive JsVal :=
| VNum (f : float)
| VStr (s : string)
| VRecords (l : list FeedbackModel).

(** The JSON bodies the router sends. *)
Inductive Body :=
| BError (error : string)
| BMessage (message : string)
| BMessageData (message : string) (data : FeedbackModel)
| BDataMessage (data : option FeedbackModel) (message : string)
| BTicket (data : option TicketDetails) (message : string)
| BPage (fields : gmap string JsVal).

(** What a throwing statement throws. *)
Inductive Error :=
| TypeError (what : string)
| Rejected (what : string)
| ConfigMissing (key : string)
| HeadersSent.

(** The result of an awaited call to a collaborator. *)
Inductive Result (A : Type) :=
| Ok (a : A)
| Fails (e : Error).
Arguments Ok {A} a.
Arguments Fails {A} e.

(** The calls a handler makes, in the order it makes them. *)
Inductive Event :=
| CatalogLookup (ref : option string)
| StoreInsert (r : FeedbackModel) (result : option FeedbackModel)
| StoreUpdate (r : FeedbackModel) (result : option FeedbackModel)
| StoreDelete (id : string)
| JiraUsernameLookup (h : string) (mail : option string) (tok : string)
| CreateTicket (h tok : string) (projectKey sum : option string)
    (descr tg : string) (ftype username : option string)
| TicketLookup (h ticketId tok : string)
| SendMail (m : Mail)
| LogError (msg : string)
| Respond (code : Z) (b : Body).

(** ** Collaborators

    What [createRouter] takes from outside the router: the configuration,
    the clock, the catalog client, the tracker client of [../api], and
    the choices of the feedback table the router cannot see (the id a
    new row gets, whether an update of a row goes through, and how a
    listing is put together). *)
Record Env := mkEnv {
  config : Config;
  now : string;
  toUTCString : option string -> string;
  getEntityByRef : option string -> Result (option Entity);
  getJiraUsernameByEmail : string -> option string -> string -> Result (option string);
  createJiraTicket :
    string -> string -> option string -> option string -> string -> string ->
    option string -> option string -> Result string;
  getTicketDetails : string -> string -> string -> Result (option TicketDetails);
  newFeedbackId : gmap string FeedbackModel -> FeedbackModel -> option string;
  updateSucceeds : gmap string FeedbackModel -> FeedbackModel -> bool;
  getAllFeedbacks :
    gmap string FeedbackModel -> string -> float -> float -> string -> gmap string JsVal
}.

(** ** The handler monad *)

(** The state of one request: the feedback table, the response that went
    out on [res] (none yet, or a status and a body), and the calls made
    so far. *)
Record World := mkWorld {
  db : gmap string FeedbackModel;
  sent : option (Z * Body);
  trace : list Event
}.

Inductive Outcome (A : Type) :=
| Done (a : A)
| Threw (e : Error).
Arguments Done {A} a.
Arguments Threw {A} e.

Definition M (A : Type) : Type := World -> Outcome A * World.

Definition ret {A} (a : A) : M A := fun w => (Done a, w).

Definition throw {A} (e : Error) : M A := fun w => (Threw e, w).

Definition bind {A B} (m : M A) (k : A -> M B) : M B :=
  fun w =>
    match m w with
    | (Done a, w') => k a w'
    | (Threw e, w') => (Threw e, w')
    end.

Declare Scope handler_scope.
Delimit Scope handler_scope with handler.
Notation "x <- m ;; k" := (bind m (fun x => k))
  (at level 100, m at next level, right associativity) : handler_scope.
Notation "m ;; k" := (bind m (fun _ => k))
  (at level 100, right associativity) : handler_scope.
Open Scope handler_scope.

Definition emit (e : Event) : M unit :=
  fun w => (Done tt, mkWorld (db w) (sent w) (trace w ++ [e])).

(** [await p] for a promise of a collaborator. *)
Definition await {A} (r : Result A) : M A :=
  match r with
  | Ok a => ret a
  | Fails e => throw e
  end.

(** A request starts on the current table with nothing sent. *)
Definition start (d : gmap string FeedbackModel) : World := mkWorld d None [].

Definition run {A} (m : M A) (d : gmap string FeedbackModel) : Outcome A * World :=
  m (start d).

(** [res.status(code).json(b)]: the first call sends the response; once
    the headers are out, a further call throws. *)
Definition respond (code : Z) (b : Body) : M unit :=
  fun w =>
    let w' := mkWorld (db w) (sent w) (trace w ++ [Respond code b]) in
    match sent w with
    | None => (Done tt, mkWorld (db w) (Some (code, b)) (trace w'))
    | Some _ => (Threw HeadersSent, w')
    end.

(** ** The feedback store *)

Definition or_else (a b : option string) : option string :=
  match a with
  | Some _ => a
  | None => b
  end.

(** A partial update: the properties present in [d] replace those of the
    stored row. *)
Definition merge (d old : FeedbackModel) : FeedbackModel :=
  mkFeedback
    (or_else (feedbackId d) (feedbackId old))
    (or_else (summary d) (summary old))
    (or_else (projectId d) (projectId old))
    (or_else (description d) (description old))
    (or_else (url d) (url old))
    (or_else (tag d) (tag old))
    (or_else (ticketUrl d) (ticketUrl old))
    (or_else (feedbackType d) (feedbackType old))
    (or_else (createdAt d) (createdAt old))
    (or_else (createdBy d) (createdBy old))
    (or_else (updatedAt d) (updatedAt old))
    (or_else (updatedBy d) (updatedBy old)).

(** Modelled from the spec: [DatabaseFeedbackStore.storeFeedbackGetUuid]
    of [../database/feedbackStore] is not part of the sources at hand.
    The table is a finite map from feedback id to row.
    [storeFeedbackGetUuid(record)] gives the record with its id, or the
    failure sentinel (the [0] that the router tests for, here [None]). *)
Definition storeFeedbackGetUuid (env : Env) (r : FeedbackModel) : M (option FeedbackModel) :=
  fun w =>
    match newFeedbackId env (db w) r with
    | Some id =>
        let row := set_feedbackId (Some id) r in
        (Done (Some row),
         mkWorld (<[id := row]> (db w)) (sent w) (trace w ++ [StoreInsert r (Some row)]))
    | None =>
        (Done None, mkWorld (db w) (sent w) (trace w ++ [StoreInsert r None]))
    end.

(** Modelled from the spec: [DatabaseFeedbackStore.updateFeedback] is
    not part of the sources at hand. [updateFeedback(record)] persists a
    partial update and gives the updated record, or a falsy value on
    failure: when there is no row to update, or when the table does not
    take the update (the table is then left as it was). *)
Definition updateFeedback (env : Env) (r : FeedbackModel) : M (option FeedbackModel) :=
  fun w =>
    let failed := (Done None, mkWorld (db w) (sent w) (trace w ++ [StoreUpdate r None])) in
    match feedbackId r with
    | Some id =>
        match db w !! id with
        | Some old =>
            if updateSucceeds env (db w) r then
              let row := merge r old in
              (Done (Some row),
               mkWorld (<[id := row]> (db w)) (sent w) (trace w ++ [StoreUpdate r (Some row)]))
            else failed
        | None => failed
        end
    | None => failed
    end.

(** Modelled from the spec: [DatabaseFeedbackStore.checkFeedbackId] is
    not part of the sources at hand. [checkFeedbackId(id)] tells whether
    the table holds the id. *)
Definition checkFeedbackId (id : string) : M bool :=
  fun w => (Done (bool_decide (is_Some (db w !! id))), w).

(** Modelled from the spec: [DatabaseFeedbackStore.getFeedbackByUuid]
    is not part of the sources at hand. [getFeedbackByUuid(id)] gives the
    record. *)
Definition getFeedbackByUuid (id : string) : M (option FeedbackModel) :=
  fun w => (Done (db w !! id), w).

(** Modelled from the spec: [DatabaseFeedbackStore.deleteFeedbackById]
    is not part of the sources at hand. [deleteFeedbackById(id)] removes
    the row. *)
Definition deleteFeedbackById (id : string) : M unit :=
  fun w => (Done tt, mkWorld (delete id (db w)) (sent w) (trace w ++ [StoreDelete id])).

(** ** Calls to the other collaborators *)

Definition catalog (env : Env) (ref : option string) : M (option Entity) :=
  emit (CatalogLookup ref) ;; await (getEntityByRef env ref).

(** [config.getString('app.title')] *)
Definition getString_app_title (env : Env) : M string :=
  match app_title (config env) with
  | Some s => ret s
  | None => throw (ConfigMissing "app.title")
  end.

(** [config.getConfigArray('feedback.integrations.jira')] *)
Definition getConfigArray_jira (env : Env) : M (list JiraConfig) :=
  match integrations_jira (config env) with
  | Some l => ret l
  | None => throw (ConfigMissing "feedback.integrations.jira")
  end.

Definition jiraUsernameByEmail (env : Env) (h : string) (mail : option string)
    (tok : string) : M (option string) :=
  emit (JiraUsernameLookup h mail tok) ;; await (getJiraUsernameByEmail env h mail tok).

Definition jiraTicket (env : Env) (h tok : string) (projectKey sum : option string)
    (descr tg : string) (ftype username : option string) : M string :=
  emit (CreateTicket h tok projectKey sum descr tg ftype username) ;;
  await (createJiraTicket env h tok projectKey sum descr tg ftype username).

Definition ticketDetails (env : Env) (h ticketId tok : string) : M (option TicketDetails) :=
  emit (TicketLookup h ticketId tok) ;; await (getTicketDetails env h ticketId tok).

(** [mailer.sendMail(m)]: not awaited. *)
Definition sendMail (m : Mail) : M unit := emit (SendMail m).

Definition logger_error (msg : string) : M unit := emit (LogError msg).

(** ** [router.post('/')] (lines 46-182) *)

Record PostRequest := mkPost {
  req_origin : option string;
  req_body : FeedbackModel
}.

(** Line 48: [!reqData.summary || reqData.summary?.trim().length < 1]. *)
Definition summary_empty (r : FeedbackModel) : bool :=
  negb (JS.truthy (summary r)) ||
  match summary r with
  | Some s => Nat.ltb (String.length (JS.trim s)) 1
  | None => false
  end.

(** Lines 51-53. *)
Definition stamp (env : Env) (r : FeedbackModel) : FeedbackModel :=
  let r := set_createdAt (Some (now env)) r in
  let r := set_updatedBy (createdBy r) r in
  set_updatedAt (createdAt r) r.

(** Line 58. *)
Definition entityRoute (origin : option string) (e : option Entity) : string :=
  JS.tpl origin +:+ "/catalog/" +:+
  JS.tpl (e ≫= fun e => namespace (metadata e)) +:+ "/" +:+
  JS.tpl (kind <$> e) +:+ "/" +:+
  JS.tpl ((fun e => name (metadata e)) <$> e) +:+ "/feedback".

(** Lines 60-61. *)
Definition feedbackTypeLabel (r : FeedbackModel) : string :=
  match feedbackType r with
  | Some t => if String.eqb t "FEEDBACK" then "Feedback" else "Issue"
  | None => "Issue"
  end.

(** Line 69: [entityRef?.metadata.title || entityRef?.metadata.name]. *)
Definition title_or_name (e : option Entity) : option string :=
  match e with
  | Some e =>
      if JS.truthy (title (metadata e)) then title (metadata e)
      else Some (name (metadata e))
  | None => None
  end.

(** Lines 67-69, the summary that replaces a long one. *)
Definition short_summary (label : string) (e : option Entity) (r : FeedbackModel) : string :=
  label +:+ " reported by " +:+ JS.tpl (JS.second_segment (createdBy r)) +:+
  " for " +:+ JS.tpl (title_or_name e).

(** Lines 63-70. *)
Definition demote (label : string) (e : option Entity) (r : FeedbackModel) : FeedbackModel :=
  match summary r with
  | Some s =>
      if Nat.ltb 255 (String.length s) then
        let r := set_description
                   (Some (s +:+ JS.nl +:+ JS.nl +:+ default EmptyString (description r))) r in
        set_summary (Some (short_summary label e r)) r
      else r
  | None => r
  end.

(** Line 97: [reqData.tag?.match(/(Excellent|Good)/g)] finds a match. *)
Definition positive_tag (t : option string) : bool :=
  match t with
  | Some t => JS.includes "Excellent" t || JS.includes "Good" t
  | None => false
  end.

(** Lines 103-107: [find(...) || getConfigArray(...)[0]]. *)
Definition serviceConfig_post (h : option string) (cfgs : list JiraConfig) : option JiraConfig :=
  match List.find (fun hostConfig => bool_decide (h = Some (host hostConfig))) cfgs with
  | Some c => Some c
  | None => cfgs !! 0%nat
  end.

(** Lines 118-124. *)
Definition jiraDescription (d : string) (jiraUsername reporterEmail : option string)
    (appTitle label route : string) (r : FeedbackModel) : string :=
  d +:+ JS.nl +:+ JS.nl +:+
  match jiraUsername with
  | None => "Reported by: " +:+ JS.tpl reporterEmail
  | Some _ => JS.cr
  end +:+ JS.nl +:+
  "*Submitted from " +:+ appTitle +:+ "*" +:+ JS.nl +:+
  "[" +:+ label +:+ " link|" +:+ route +:+ "?id=" +:+ JS.tpl (feedbackId r) +:+ "]".

(** Lines 99-137, the body of the first [if]; gives [reqData] back with
    its [ticketUrl]. *)
Definition jiraBranch (env : Env) (anns : gmap string string)
    (reporterEmail : option string) (appTitle label route : string)
    (r : FeedbackModel) : M FeedbackModel :=
  cfgs <- getConfigArray_jira env ;;
  match serviceConfig_post (anns !! "feedback/host") cfgs with
  | None => throw (TypeError "serviceConfig is undefined")
  | Some serviceConfig =>
      let h := host serviceConfig in
      let authToken := token serviceConfig in
      let projectKey := anns !! "jira/project-key" in
      jiraUsername <- jiraUsernameByEmail env h reporterEmail authToken ;;
      match description r with
      | None => throw (TypeError "reqData.description is undefined")
      | Some d =>
          let descr := jiraDescription d jiraUsername reporterEmail appTitle label route r in
          match tag r with
          | None => throw (TypeError "reqData.tag is undefined")
          | Some t =>
              key <- jiraTicket env h authToken projectKey (summary r) descr
                       (JS.join "-" (JS.split " " (JS.toLowerCase t)))
                       (feedbackType r) jiraUsername ;;
              let r := set_ticketUrl (Some (h +:+ "/browse/" +:+ key)) r in
              updateFeedback env r ;;
              ret r
          end
      end
  end.

(** Lines 144-146. *)
Definition mailSubject (label : string) (r : FeedbackModel) : string :=
  JS.tpl (tag r) +:+ " - " +:+ label +:+ " reported for " +:+
  JS.tpl (JS.second_segment (projectId r)).

(** Lines 162-168. *)
Definition mailDescription (r : FeedbackModel) : string :=
  match description r with
  | Some d =>
      if Nat.ltb 0 (String.length d) then
        "Description: " +:+ d +:+ JS.nl +:+ "    <br/>" +:+ JS.nl +:+ "    <br/>"
      else JS.cr
  | None => JS.cr
  end.

(** Lines 147-177, line by line. *)
Definition mailBody (env : Env) (appTitle label route : string) (r : FeedbackModel) : string :=
  JS.join JS.nl
    [ EmptyString;
      "<div>";
      "  Hi " +:+ JS.tpl (JS.second_segment (createdBy r)) +:+ ",";
      "  <br/> ";
      "  <br/> ";
      "  We have received your feedback for ";
      "    <b>";
      "      " +:+ JS.tpl (JS.second_segment (projectId r));
      "    </b>, ";
      "  and here are the details:";
      "  <br/>";
      "  <br/>";
      "  Summary: " +:+ JS.tpl (summary r);
      "  <br/>";
      "  <br/>";
      "  " +:+ mailDescription r;
      "  Submitted from: " +:+ JS.tpl (url r);
      "  <br/>";
      "  Submitted at: " +:+ toUTCString env (createdAt r) +:+ " ";
      "  <br/>";
      "  <br/>";
      "  <a href=" +:+ JS.dq +:+ route +:+ "?id=" +:+ JS.tpl (feedbackId r) +:+ JS.dq +:+ ">";
      "    View on " +:+ appTitle;
      "  </a>";
      "</div>" ].

(** Lines 141-178, the argument of [sendMail]. *)
Definition notification (env : Env) (reporterEmail replyTo : option string)
    (appTitle label route : string) (r : FeedbackModel) : Mail :=
  mkMail reporterEmail replyTo (mailSubject label r) (mailBody env appTitle label route r).

(** Lines 86-180, the block that runs once the response is out. *)
Definition afterResponse (env : Env) (anns : gmap string string)
    (label route : string) (r : FeedbackModel) : M unit :=
  let type := anns !! "feedback/type" in
  let replyTo := anns !! "feedback/email-to" in
  reporter <- catalog env (createdBy r) ;;
  match reporter ≫= profile with
  | None => throw (TypeError "profile is undefined")
  | Some p =>
      let reporterEmail := email p in
      appTitle <- getString_app_title env ;;
      match type with
      | None => throw (TypeError "type is undefined")
      | Some type =>
          r <- (if String.eqb (JS.toUpperCase type) "JIRA" && negb (positive_tag (tag r))
                then jiraBranch env anns reporterEmail appTitle label route r
                else ret r) ;;
          if String.eqb (JS.toUpperCase type) "MAIL" || JS.truthy replyTo
          then sendMail (notification env reporterEmail replyTo appTitle label route r)
          else ret tt
      end
  end.

(** The handler. *)
Definition post_root (env : Env) (req : PostRequest) : M unit :=
  let reqData := req_body req in
  if summary_empty reqData then respond 500 (BError "Summary field empty")
  else
    let reqData := stamp env reqData in
    entityRef <- catalog env (projectId reqData) ;;
    let route := entityRoute (req_origin req) entityRef in
    let label := feedbackTypeLabel reqData in
    let reqData := demote label entityRef reqData in
    respObj <- storeFeedbackGetUuid env reqData ;;
    match respObj with
    | None => respond 500 (BError ("Failed to create " +:+ label))
    | Some respObj =>
        let reqData := set_feedbackId (feedbackId respObj) reqData in
        respond 201 (BMessageData (label +:+ " created successfully") respObj) ;;
        match entityRef ≫= fun e => annotations (metadata e) with
        | Some anns => afterResponse env anns label route reqData
        | None => ret tt
        end
    end.

(** ** [router.get('/')] (lines 184-206) *)

Record ListQuery := mkListQuery {
  q_projectId : option string;
  q_offset : option string;
  q_limit : option string;
  q_query : option string
}.

Definition get_root (env : Env) (q : ListQuery) : M unit :=
  let projectId := if JS.truthy (q_projectId q) then JS.tpl (q_projectId q) else "all" in
  let offset := if JS.truthy (q_offset q) then JS.parseInt (JS.tpl (q_offset q)) else 0%float in
  let limit := if JS.truthy (q_limit q) then JS.parseInt (JS.tpl (q_limit q)) else 10%float in
  let searchKey := default EmptyString (q_query q) in
  fun w =>
    let feedbackData := getAllFeedbacks env (db w) projectId offset limit searchKey in
    let page := (offset / limit + 1)%float in
    respond 200
      (BPage (<["pageSize" := VNum limit]> (<["currentPage" := VNum page]> feedbackData))) w.

(** ** [router.get('/:id')] (lines 208-222) *)

Definition get_id (id : string) : M unit :=
  found <- checkFeedbackId id ;;
  if found : bool then
    feedback <- getFeedbackByUuid id ;;
    respond 200 (BDataMessage feedback "Feedback fetched successfully")
  else respond 404 (BError ("No feedback found for id " +:+ id)).

(** ** [router.get('/:id/ticket')] (lines 224-258) *)

Record TicketQuery := mkTicketQuery {
  t_ticketId : option string;
  t_projectId : option string
}.

(** [entityRef?.metadata.annotations?.[key]] *)
Definition annotation_of (e : option Entity) (key : string) : option string :=
  match e with
  | Some e =>
      match annotations (metadata e) with
      | Some a => a !! key
      | None => None
      end
  | None => None
  end.

(** Lines 239-243. *)
Definition serviceConfig_ticket (h : option string) (cfgs : list JiraConfig) : option JiraConfig :=
  match List.find (fun hostConfig => bool_decide (h = Some (host hostConfig))) cfgs with
  | Some c => Some c
  | None => cfgs !! 0%nat
  end.

Definition get_id_ticket (env : Env) (q : TicketQuery) : M unit :=
  let ticketId := if JS.truthy (t_ticketId q) then t_ticketId q else None in
  let projectId := if JS.truthy (t_projectId q) then t_projectId q else None in
  let notFound :=
    respond 404 (BError ("Unable to fetch jira ticket " +:+ default "null" ticketId)) in
  match ticketId, projectId with
  | Some ticketId, Some projectId =>
      entityRef <- catalog env (Some projectId) ;;
      let feedbackType := annotation_of entityRef "feedback/type" in
      match feedbackType with
      | Some t =>
          if String.eqb (JS.toLowerCase t) "jira" then
            let h := annotation_of entityRef "feedback/host" in
            cfgs <- getConfigArray_jira env ;;
            match serviceConfig_ticket h cfgs with
            | None => throw (TypeError "serviceConfig is undefined")
            | Some serviceConfig =>
                resp <- ticketDetails env (host serviceConfig) ticketId (token serviceConfig) ;;
                respond 200 (BTicket resp "fetched successfully")
            end
          else notFound
      | None => notFound
      end
  | _, _ => notFound
  end.

(** ** [router.patch('/:id')] (lines 261-281) *)

Definition patch_id (env : Env) (id : string) (data : FeedbackModel) : M unit :=
  found <- checkFeedbackId id ;;
  if found : bool then
    let data := set_feedbackId (Some id) data in
    let data := set_updatedAt (Some (now env)) data in
    updatedData <- updateFeedback env data ;;
    match updatedData with
    | Some u => respond 200 (BDataMessage (Some u) "Feedback updated successfully")
    | None => respond 500 (BMessage "Failed to edit the feedback")
    end
  else respond 404 (BMessage ("No feedback found for id " +:+ id)).

(** ** [router.delete('/:id')] (lines 283-294)

    The [if] of line 285 holds no [return]: whatever it does, lines
    290-293 run after it. *)
Definition delete_id (id : string) : M unit :=
  found <- checkFeedbackId id ;;
  (if found : bool then
     deleteFeedbackById id ;;
     respond 200 (BMessage "Deleted successfully")
   else ret tt) ;;
  logger_error ("No feedback found for id " +:+ id) ;;
  respond 404 (BMessage ("No feedback found for id " +:+ id)).


(** ** Reading an execution *)

Definition is_respond (e : Event) : bool :=
  match e with
  | Respond _ _ => true
  | _ => false
  end.

Definition is_insert (e : Event) : bool :=
  match e with
  | StoreInsert _ _ => true
  | _ => false
  end.

Definition is_ticket_call (e : Event) : bool :=
  match e with
  | CreateTicket _ _ _ _ _ _ _ _ => true
  | _ => false
  end.

Definition is_update (e : Event) : bool :=
  match e with
  | StoreUpdate _ _ => true
  | _ => false
  end.

Definition is_mail (e : Event) : bool :=
  match e with
  | SendMail _ => true
  | _ => false
  end.

(** The side effects of a submission: the ticket-creation call, the
    update that writes the ticket URL back, the mail. *)
Definition is_side_effect (e : Event) : bool :=
  is_ticket_call e || is_update e || is_mail e.

(** The record that [post_root] hands to the store (lines 47-70). *)
Definition prepared (env : Env) (req : PostRequest) (entityRef : option Entity) : FeedbackModel :=
  let reqData := stamp env (req_body req) in
  demote (feedbackTypeLabel reqData) entityRef reqData.

(** The 201 body of line 80. *)
Definition created (req : PostRequest) (row : FeedbackModel) : Body :=
  BMessageData (feedbackTypeLabel (req_body req) +:+ " created successfully") row.

(** [m] leaves the response slot alone and only makes calls that
    satisfy [P]. *)
Definition steps (P : Event -> Prop) {A} (m : M A) : Prop :=
  forall w, exists evs,
    sent (snd (m w)) = sent w /\
    trace (snd (m w)) = trace w ++ evs /\
    Forall P evs /\
    (Forall (fun e => is_update e = false) evs -> db (snd (m w)) = db w).

(** What [post_root] runs after line 83, for the row the store gave. *)
Definition after_block (env : Env) (req : PostRequest) (entityRef : option Entity)
    (row : FeedbackModel) : M unit :=
  match entityRef ≫= fun e => annotations (metadata e) with
  | Some anns =>
      afterResponse env anns (feedbackTypeLabel (req_body req))
        (entityRoute (req_origin req) entityRef) row
  | None => ret tt
  end.

(** The four ways through [post_root]: the summary is refused; the
    catalog lookup fails; the store gives its failure sentinel; the row
    is stored, the 201 goes out and the rest runs. *)
Inductive PostRun (env : Env) (req : PostRequest) (d : gmap string FeedbackModel) :
  Outcome unit * World -> Prop :=
| PostRefused :
    summary_empty (req_body req) = true ->
    PostRun env req d
      (Done tt,
       mkWorld d (Some (500%Z, BError "Summary field empty"))
         [Respond 500 (BError "Summary field empty")])
| PostCatalogFails e :
    summary_empty (req_body req) = false ->
    getEntityByRef env (projectId (req_body req)) = Fails e ->
    PostRun env req d
      (Threw e, mkWorld d None [CatalogLookup (projectId (req_body req))])
| PostStoreFails entityRef :
    summary_empty (req_body req) = false ->
    getEntityByRef env (projectId (req_body req)) = Ok entityRef ->
    newFeedbackId env d (prepared env req entityRef) = None ->
    let failed := BError ("Failed to create " +:+ feedbackTypeLabel (req_body req)) in
    PostRun env req d
      (Done tt,
       mkWorld d (Some (500%Z, failed))
         [CatalogLookup (projectId (req_body req));
          StoreInsert (prepared env req entityRef) None;
          Respond 500 failed])
| PostStored entityRef id :
    summary_empty (req_body req) = false ->
    getEntityByRef env (projectId (req_body req)) = Ok entityRef ->
    newFeedbackId env d (prepared env req entityRef) = Some id ->
    let row := set_feedbackId (Some id) (prepared env req entityRef) in
    PostRun env req d
      (after_block env req entityRef row
         (mkWorld (<[id := row]> d) (Some (201%Z, created req row))
            [CatalogLookup (projectId (req_body req));
             StoreInsert (prepared env req entityRef) (Some row);
             Respond 201 (created req row)])).

(** The world after one more call. *)
Definition push (e : Event) (w : World) : World :=
  mkWorld (db w) (sent w) (trace w ++ [e]).

(** Line 96 and line 140, the two conditions of the block. *)
Definition jira_condition (type : string) (r : FeedbackModel) : bool :=
  String.eqb (JS.toUpperCase type) "JIRA" && negb (positive_tag (tag r)).

Definition mail_condition (type : string) (replyTo : option string) : bool :=
  String.eqb (JS.toUpperCase type) "MAIL" || JS.truthy replyTo.

(** A call to the tracker is made with the host and token of entry [c]. *)
Definition uses_entry (c : option JiraConfig) (e : Event) : Prop :=
  match e with
  | JiraUsernameLookup h _ tok => c = Some (mkJira h tok)
  | CreateTicket h tok _ _ _ _ _ _ => c = Some (mkJira h tok)
  | TicketLookup h _ tok => c = Some (mkJira h tok)
  | _ => True
  end.

(** What is left of a string after its first [n] characters. *)
Fixpoint drop_chars (n : nat) (s : string) : string :=
  match n, s with
  | O, _ => s
  | S n', String _ s' => drop_chars n' s'
  | S _, EmptyString => EmptyString
  end.

(** The overflow of a summary: what lies beyond its 255th character. *)
Definition overflow (s : string) : string := drop_chars 255 s.

(** ** A concrete deployment, for evaluating the handlers *)

Module Sample.

Definition jira1 : JiraConfig := mkJira "https://jira.host" "token-1".
Definition jira2 : JiraConfig := mkJira "https://jira.corp" "token-2".

Definition cfg : Config := mkConfig (Some "Test App") (Some [jira1; jira2]).

Definition john : Entity :=
  mkEntity "User" (mkMeta (Some "default") "john" None None)
    (Some (mkProfile (Some "john.doe@example.com"))).

(** A component of the catalog with the given annotations. *)
Definition component (anns : option (gmap string string)) : Entity :=
  mkEntity "Component" (mkMeta (Some "default") "example" (Some "Example App") anns) None.

(** The catalog knows [component:default/example] and
    [user:default/john]; the tracker creates tickets when [tracker_up];
    the store gives a row when [store_up], its sentinel otherwise, and
    takes every update. *)
Definition env_with (anns : option (gmap string string)) (tracker_up store_up : bool) : Env :=
  mkEnv cfg "2024-01-01T00:00:00.000Z"
    (fun _ => "Mon, 01 Jan 2024 00:00:00 GMT")
    (fun ref =>
       match ref with
       | Some r =>
           if String.eqb r "component:default/example" then Ok (Some (component anns))
           else if String.eqb r "user:default/john" then Ok (Some john)
           else Ok None
       | None => Fails (TypeError "entity reference is undefined")
       end)
    (fun _ _ _ => Ok (Some "John Doe"))
    (fun _ _ projectKey _ _ _ _ _ =>
       if tracker_up then Ok (JS.tpl projectKey +:+ "-01")
       else Fails (Rejected "tracker unreachable"))
    (fun _ ticketId _ =>
       if String.eqb ticketId "ticket-id" then Ok (Some (mkTicket "Backlog" "John Doe"))
       else Ok None)
    (fun _ _ => if store_up then Some "fb-1" else None)
    (fun _ _ => true)
    (fun d _ _ _ _ => {[ "count" := VNum 0%float ]}).

Definition env (anns : option (gmap string string)) (tracker_up : bool) : Env :=
  env_with anns tracker_up true.

Definition feedback (s : string) (d t : option string) : FeedbackModel :=
  mkFeedback None (Some s) (Some "component:default/example") d
    (Some "http://localhost:3000/catalog/default/component/example") t None
    (Some "ISSUE") None (Some "user:default/john") None None.

Definition request (s : string) (d t : option string) : PostRequest :=
  mkPost (Some "http://localhost:3000") (feedback s d t).

Definition jira_annotations : gmap string string :=
  {[ "feedback/type" := "JIRA";
     "feedback/host" := "https://jira.corp";
     "jira/project-key" := "proj-key" ]}.

Definition mail_annotations : gmap string string :=
  {[ "feedback/type" := "MAIL" ]}.

Definition replyto_only : gmap string string :=
  {[ "feedback/email-to" := "team@example.com" ]}.

Definition jira_replyto_annotations : gmap string string :=
  <[ "feedback/email-to" := "team@example.com" ]> jira_annotations.

(** The row the store gives for a request on the component. *)
Definition row (E : Env) (R : PostRequest) (anns : option (gmap string string)) : FeedbackModel :=
  set_feedbackId (Some "fb-1") (prepared E R (Some (component anns))).

Fixpoint repeated (n : nat) (s : string) : string :=
  match n with
  | O => EmptyString
  | S n' => s +:+ repeated n' s
  end.

(** A summary of 300 characters. *)
Definition long_summary : string := repeated 30 "0123456789".

(** A table that holds one row, [fb-0]. *)
Definition table : gmap string FeedbackModel :=
  {[ "fb-0" := set_feedbackId (Some "fb-0") (feedback "Slow page" (Some "details") (Some "Slow Loading")) ]}.

(** An issue with a description and a tag that is not of positive
    sentiment, on a component that files tickets at [jira2]. *)
Definition issue : PostRequest := request "Broken" (Some "It fails") (Some "Needs Work").

Definition jira_env : Env := env (Some jira_annotations) true.

Definition jira_row : FeedbackModel := row jira_env issue (Some jira_annotations).

(** The same component while the tracker rejects ticket creation, with
    and without a reply-to address. *)
Definition jira_down_env : Env := env (Some jira_annotations) false.

Definition jira_replyto_down_env : Env := env (Some jira_replyto_annotations) false.

Definition mail_env : Env := env (Some mail_annotations) true.

(** A component without annotations. *)
Definition plain_env : Env := env None true.

(** A deployment whose store fails. *)
Definition store_down_env : Env := env_with (Some jira_annotations) true false.

(** The deployment [E] with a table that takes no update. *)
Definition without_updates (E : Env) : Env :=
  mkEnv (config E) (now E) (toUTCString E) (getEntityByRef E)
    (getJiraUsernameByEmail E) (createJiraTicket E) (getTicketDetails E)
    (newFeedbackId E) (fun _ _ => false) (getAllFeedbacks E).

Definition jira_update_down_env : Env := without_updates jira_env.

End Sample.

(** [m] writes no row but the one of [id], and neither adds nor removes
    an id. *)
Definition touches (id : option string) {A} (m : M A) : Prop :=
  forall w,
    (forall k, Some k <> id -> db (snd (m w)) !! k = db w !! k) /\
    (forall k, is_Some (db (snd (m w)) !! k) <-> is_Some (db w !! k)).

(** The calls that can follow the reporter lookup in the block after the
    response: none; the mail alone; the username lookup alone (the block
    stopped there); the lookup and a rejected ticket call; the lookup, an
    accepted ticket call and the update that writes its URL, with or
    without the mail. *)
Inductive AfterShape (env : Env) (r : FeedbackModel) : list Event -> Prop :=
| AfterNothing : AfterShape env r []
| AfterMail m : AfterShape env r [SendMail m]
| AfterLookup h mail tok : AfterShape env r [JiraUsernameLookup h mail tok]
| AfterRejected h mail tok pk sm dsc tg ft u err :
    createJiraTicket env h tok pk sm dsc tg ft u = Fails err ->
    AfterShape env r
      [JiraUsernameLookup h mail tok; CreateTicket h tok pk sm dsc tg ft u]
| AfterFiled h mail tok pk sm dsc tg ft u key res rest :
    createJiraTicket env h tok pk sm dsc tg ft u = Ok key ->
    rest = [] \/ (exists m, rest = [SendMail m]) ->
    AfterShape env r
      ([JiraUsernameLookup h mail tok;
        CreateTicket h tok pk sm dsc tg ft u;
        StoreUpdate (set_ticketUrl (Some (h +:+ "/browse/" +:+ key)) r) res] ++ rest).

(** The row of [id] is the row [r] of the insert, or that row with a
    ticket URL. *)
Definition row_or_ticketed (id : string) (r : FeedbackModel) (w : World) : Prop :=
  db w !! id = Some r \/ exists u, db w !! id = Some (set_ticketUrl (Some u) r).

Definition keeps_row (id : string) (r : FeedbackModel) {A} (m : M A) : Prop :=
  forall w, row_or_ticketed id r w -> row_or_ticketed id r (snd (m w)).

(** Every character of [s] satisfies [P]. *)
Fixpoint all_chars (P : ascii -> bool) (s : string) : bool :=
  match s with
  | EmptyString => true
  | String c s' => P c && all_chars P s'
  end.

Definition not_space (c : ascii) : bool := negb (Ascii.eqb c " ").

(** The label argument of a ticket call holds no space. *)
Definition label_without_space (e : Event) : Prop :=
  match e with
  | CreateTicket _ _ _ _ _ tg _ _ => JS.includes " " tg = false
  | _ => True
  end.

(** A ticket call is made for an entity of type JIRA and a tag that is
    not of positive sentiment, and carries the project key of the entity
    and the summary, label and type of the record [r]. *)
Definition ticket_for (anns : gmap string string) (r : FeedbackModel) (e : Event) : Prop :=
  match e with
  | CreateTicket _ _ pk sm _ tg ft _ =>
      exists type t,
        anns !! "feedback/type" = Some type /\
        JS.toUpperCase type = "JIRA" /\
        tag r = Some t /\
        positive_tag (Some t) = false /\
        pk = anns !! "jira/project-key" /\
        sm = summary r /\
        tg = JS.join "-" (JS.split " " (JS.toLowerCase t)) /\
        ft = feedbackType r
  | _ => True
  end.

(** A mail is sent for an entity of type MAIL or with a reply-to
    address, and replies go to that address. *)
Definition mail_for (anns : gmap string string) (e : Event) : Prop :=
  match e with
  | SendMail m =>
      (exists type,
         anns !! "feedback/type" = Some type /\
         (JS.toUpperCase type = "MAIL" \/ JS.truthy (anns !! "feedback/email-to") = true)) /\
      replyTo m = anns !! "feedback/email-to"
  | _ => True
  end.

(** A query parameter that is present but empty. *)
Definition drop_empty (x : option string) : option string :=
  match x with
  | Some EmptyString => None
  | _ => x
  end.

(** ** [EntityFeedbackPage] (plugins/feedback, lines 66-67)

    The entity reference the page hands to the submission dialog and to
    the feedback table as [projectId]. *)
Definition projectEntity (entity : Entity) : string :=
  JS.toLowerCase
    (kind entity +:+ ":" +:+ JS.tpl (namespace (metadata entity)) +:+ "/" +:+
     name (metadata entity)).

Definition not_slash (c : ascii) : bool := negb (Ascii.eqb c "/").

(** The description of a ticket call begins with the description of the
    record [r] and holds the link that ends in the id of [r]. *)
Definition ticket_links (r : FeedbackModel) (e : Event) : Prop :=
  match e with
  | CreateTicket _ _ _ _ dsc _ _ _ =>
      exists d0,
        description r = Some d0 /\
        String.prefix d0 dsc = true /\
        JS.includes ("?id=" +:+ JS.tpl (feedbackId r) +:+ "]") dsc = true
  | _ => True
  end.

(** * Properties *)

(** ** The monad *)

Lemma steps_ret (P : Event -> Prop) {A} (a : A) : steps P (ret a).
Proof.
  intros w. exists []. simpl. rewrite app_nil_r. auto.
Qed.

Lemma steps_throw (P : Event -> Prop) {A} (e : Error) : steps P (@throw A e).
Proof.
  intros w. exists []. simpl. rewrite app_nil_r. auto.
Qed.

Lemma steps_bind (P : Event -> Prop) {A B} (m : M A) (k : A -> M B) :
  steps P m -> (forall a, steps P (k a)) -> steps P (bind m k).
Proof.
  intros Hm Hk w. unfold bind.
  destruct (Hm w) as (evs & Hs & Ht & HP & Hd).
  destruct (m w) as [[a|e] w']; simpl in *.
  - destruct (Hk a w') as (evs' & Hs' & Ht' & HP' & Hd').
    exists (evs ++ evs'). rewrite Hs', Ht', Hs, Ht, app_assoc.
    split; [reflexivity|]. split; [reflexivity|]. split.
    + apply Forall_app; auto.
    + intros HF. apply Forall_app in HF as [HF1 HF2].
      rewrite Hd', Hd; auto.
  - exists evs. auto.
Qed.

Lemma steps_emit (P : Event -> Prop) (e : Event) : P e -> steps P (emit e).
Proof.
  intros He w. exists [e]. simpl. auto.
Qed.

Lemma steps_await (P : Event -> Prop) {A} (r : Result A) : steps P (await r).
Proof.
  destruct r; [apply steps_ret | apply steps_throw].
Qed.

Lemma steps_updateFeedback (P : Event -> Prop) (env : Env) (r : FeedbackModel) :
  (forall res, P (StoreUpdate r res)) -> steps P (updateFeedback env r).
Proof.
  intros HP w. unfold updateFeedback. cbv zeta.
  destruct (feedbackId r) as [id|];
    [destruct (db w !! id); [destruct (updateSucceeds env (db w) r)|]|];
    eexists [_]; simpl; repeat split; auto;
    intros HF; inversion HF; discriminate.
Qed.

(** ** [post_root], path by path *)

Lemma post_root_cases env req d : PostRun env req d (run (post_root env req) d).
Proof.
  unfold run, post_root.
  destruct (summary_empty (req_body req)) eqn:Hs.
  - apply PostRefused. exact Hs.
  - unfold bind at 1. unfold catalog. unfold bind at 1. simpl.
    destruct (getEntityByRef env (projectId (req_body req))) as [entityRef|e] eqn:Hc; simpl.
    + unfold bind at 1. unfold storeFeedbackGetUuid. simpl.
      change (demote (feedbackTypeLabel (stamp env (req_body req))) entityRef
                (stamp env (req_body req))) with (prepared env req entityRef).
      destruct (newFeedbackId env d (prepared env req entityRef)) as [id|] eqn:Hn.
      * unfold bind at 1. simpl. apply (PostStored env req d entityRef id Hs Hc Hn).
      * apply (PostStoreFails env req d entityRef Hs Hc Hn).
    + apply (PostCatalogFails env req d e Hs Hc).
Qed.

Ltac steps_tac :=
  cbv zeta;
  repeat first
    [ apply steps_ret
    | apply steps_throw
    | apply steps_await
    | apply steps_bind; [| intros ?]
    | apply steps_emit
    | apply steps_updateFeedback; intros ?
    | match goal with
      | |- steps _ (match ?x with _ => _ end) => destruct x eqn:?
      end
    | progress unfold catalog, getString_app_title, getConfigArray_jira,
        jiraUsernameByEmail, jiraTicket, sendMail ].

(** Nothing after line 83 touches the response or inserts a row. *)
Lemma afterResponse_quiet env anns label route r :
  steps (fun e => is_respond e = false /\ is_insert e = false)
    (afterResponse env anns label route r).
Proof.
  unfold afterResponse, jiraBranch. steps_tac; simpl; auto.
Qed.

Lemma after_block_quiet env req entityRef row :
  steps (fun e => is_respond e = false /\ is_insert e = false)
    (after_block env req entityRef row).
Proof.
  unfold after_block.
  destruct (entityRef ≫= _); [apply afterResponse_quiet | apply steps_ret].
Qed.

(** The trace of the stored path: three calls, then the calls of the
    block after the response. *)
Lemma stored_path env req entityRef row w0 :
  sent w0 = Some (201%Z, created req row) ->
  exists evs,
    trace (snd (after_block env req entityRef row w0)) = trace w0 ++ evs /\
    sent (snd (after_block env req entityRef row w0)) = Some (201%Z, created req row) /\
    Forall (fun e => is_respond e = false /\ is_insert e = false) evs.
Proof.
  intros Hs.
  destruct (after_block_quiet env req entityRef row w0) as (evs & H1 & H2 & H3 & _).
  exists evs. rewrite H1, H2. auto.
Qed.

Lemma Forall_not_In (f : Event -> bool) (evs : list Event) (e : Event) :
  Forall (fun x => f x = false) evs -> f e = true -> ~ In e evs.
Proof.
  intros HF He Hin. rewrite Forall_forall in HF.
  apply list_elem_of_In in Hin. apply HF in Hin. congruence.
Qed.

(** ** Submission: validation, store failure, order of effects *)

(** C5: a body whose summary is missing, or trims to the empty string,
    gets a 500 with an [error] body; the table is left as it was and the
    response is the only call the handler makes (no row, no ticket, no
    mail). *)
Theorem post_empty_summary_500 env req d :
  summary (req_body req) = None \/
  (exists s, summary (req_body req) = Some s /\ JS.trim s = EmptyString) ->
  run (post_root env req) d =
    (Done tt,
     mkWorld d (Some (500%Z, BError "Summary field empty"))
       [Respond 500 (BError "Summary field empty")]).
Proof.
  intros H.
  assert (Hs : summary_empty (req_body req) = true).
  { unfold summary_empty. destruct H as [H | (s & H & Ht)]; rewrite H; simpl.
    - reflexivity.
    - rewrite Ht. simpl. apply orb_true_r. }
  unfold run, post_root. rewrite Hs. reflexivity.
Qed.

(** C6: when the store gives its failure sentinel, the handler answers
    500 with the generic [Failed to create ...] error body and stops:
    the table is unchanged and no call follows the response. *)
Theorem post_store_sentinel_500 env req d r :
  In (StoreInsert r None) (trace (snd (run (post_root env req) d))) ->
  let failed := BError ("Failed to create " +:+ feedbackTypeLabel (req_body req)) in
  run (post_root env req) d =
    (Done tt,
     mkWorld d (Some (500%Z, failed))
       [CatalogLookup (projectId (req_body req)); StoreInsert r None; Respond 500 failed]).
Proof.
  intros Hin failed. subst failed.
  pose proof (post_root_cases env req d) as Hc.
  remember (run (post_root env req) d) as out eqn:Hout.
  destruct Hc as [Hs | e Hs Hcat | entityRef Hs Hcat Hn failed | entityRef id Hs Hcat Hn row];
    simpl in Hin.
  - destruct Hin as [Hin | []]. discriminate.
  - destruct Hin as [Hin | []]. discriminate.
  - destruct Hin as [Hin | [Hin | [Hin | []]]]; try discriminate.
    inversion Hin; subst. reflexivity.
  - exfalso.
    edestruct (stored_path env req entityRef row) as (evs & Ht & _ & HF);
      [ | rewrite Ht in Hin ]; [reflexivity |].
    simpl in Hin.
    destruct Hin as [Hin | [Hin | [Hin | Hin]]]; try discriminate.
    revert Hin. apply (Forall_not_In is_insert); [| reflexivity].
    eapply Forall_impl; [exact HF | simpl; tauto].
Qed.

(** C2: whenever the store returns a row, the 201 that carries it goes
    out before any ticket-creation call, ticket-URL update or mail: the
    trace splits around that response into a part free of those side
    effects and a part free of any further response, and the response
    on the wire is that 201 however the rest of the handler ends. *)
Theorem post_response_precedes_side_effects env req d r row :
  In (StoreInsert r (Some row)) (trace (snd (run (post_root env req) d))) ->
  exists pre suf,
    trace (snd (run (post_root env req) d)) = pre ++ Respond 201 (created req row) :: suf /\
    Forall (fun e => is_side_effect e = false) pre /\
    Forall (fun e => is_respond e = false) suf /\
    sent (snd (run (post_root env req) d)) = Some (201%Z, created req row).
Proof.
  intros Hin.
  pose proof (post_root_cases env req d) as Hc.
  remember (run (post_root env req) d) as out eqn:Hout.
  destruct Hc as [Hs | e Hs Hcat | entityRef Hs Hcat Hn failed | entityRef id Hs Hcat Hn row0];
    simpl in Hin.
  - destruct Hin as [Hin | []]. discriminate.
  - destruct Hin as [Hin | []]. discriminate.
  - destruct Hin as [Hin | [Hin | [Hin | []]]]; discriminate.
  - edestruct (stored_path env req entityRef row0) as (evs & Ht & Hsent & HF);
      [ | rewrite Ht in Hin |- *; rewrite Hsent ]; [reflexivity |].
    simpl in Hin |- *.
    assert (row = row0) as ->.
    { destruct Hin as [Hin | [Hin | [Hin | Hin]]]; try discriminate.
      - inversion Hin. reflexivity.
      - exfalso. revert Hin. apply (Forall_not_In is_insert); [| reflexivity].
        eapply Forall_impl; [exact HF | simpl; tauto]. }
    exists [CatalogLookup (projectId (req_body req));
            StoreInsert (prepared env req entityRef) (Some row0)], evs.
    repeat split.
    + repeat constructor.
    + eapply Forall_impl; [exact HF | simpl; tauto].
Qed.

Lemma prefix_empty (s : string) : String.prefix EmptyString s = true.
Proof. destruct s; reflexivity. Qed.

Lemma prefix_of_empty (a : string) : String.prefix a EmptyString = true -> a = EmptyString.
Proof. destruct a; [reflexivity | discriminate]. Qed.

Lemma prefix_extend (a s r : string) :
  String.prefix a s = true -> String.prefix a (s +:+ r) = true.
Proof.
  revert s. induction a as [|c a IH]; intros s H.
  - apply prefix_empty.
  - destruct s as [|c' s]; [discriminate|]. simpl in *.
    destruct (ascii_dec c c'); [apply IH; exact H | discriminate].
Qed.

Lemma includes_empty (s : string) : JS.includes EmptyString s = true.
Proof. destruct s; reflexivity. Qed.

Lemma includes_extend (a s r : string) :
  JS.includes a s = true -> JS.includes a (s +:+ r) = true.
Proof.
  induction s as [|c s IH]; intros H.
  - simpl in H. rewrite orb_false_r in H. apply prefix_of_empty in H. subst a.
    apply includes_empty.
  - change (String.prefix a (String c s) || JS.includes a s = true) in H.
    change (String.prefix a (String c s +:+ r) || JS.includes a (s +:+ r) = true).
    apply orb_true_iff in H as [H | H].
    + rewrite (prefix_extend a (String c s) r H). reflexivity.
    + rewrite (IH H). apply orb_true_r.
Qed.

Lemma prefix_same (s : string) : String.prefix s s = true.
Proof.
  induction s as [|c s IH]; simpl; [reflexivity|].
  destruct (ascii_dec c c); [exact IH | contradiction].
Qed.

Lemma includes_same (s : string) : JS.includes s s = true.
Proof.
  destruct s as [|c s]; [reflexivity|].
  change (String.prefix (String c s) (String c s) || JS.includes (String c s) s = true).
  rewrite prefix_same. reflexivity.
Qed.

Lemma includes_drop_chars (n : nat) (s : string) : JS.includes (drop_chars n s) s = true.
Proof.
  revert s. induction n as [|n IH]; intros s.
  - apply includes_same.
  - destruct s as [|c s]; [reflexivity|].
    change (String.prefix (drop_chars n s) (String c s) ||
            JS.includes (drop_chars n s) s = true).
    rewrite IH. apply orb_true_r.
Qed.

Lemma demote_ticketUrl label e r : ticketUrl (demote label e r) = ticketUrl r.
Proof.
  unfold demote. destruct (summary r) as [s|]; [|reflexivity].
  destruct (Nat.ltb 255 (String.length s)); reflexivity.
Qed.

Lemma prepared_ticketUrl env req e :
  ticketUrl (prepared env req e) = ticketUrl (req_body req).
Proof. unfold prepared. cbv zeta. rewrite demote_ticketUrl. reflexivity. Qed.

(** C10, as the code has it: when the catalog gives no entity for the
    project, or one whose metadata has no annotations, a submission that
    is stored ends after
    the 201: the handler makes exactly the lookup, the insert and the
    response (no ticket call, no mail, no second write), so the table
    holds the row as the insert left it, its [ticketUrl] being the one of
    the request (absent when the request had none). *)
Theorem post_without_annotations_stops env req d r row :
  In (StoreInsert r (Some row)) (trace (snd (run (post_root env req) d))) ->
  (getEntityByRef env (projectId (req_body req)) = Ok None \/
   exists e, getEntityByRef env (projectId (req_body req)) = Ok (Some e) /\
             annotations (metadata e) = None) ->
  exists id,
    feedbackId row = Some id /\
    run (post_root env req) d =
      (Done tt,
       mkWorld (<[id := row]> d) (Some (201%Z, created req row))
         [CatalogLookup (projectId (req_body req));
          StoreInsert r (Some row);
          Respond 201 (created req row)]) /\
    ticketUrl row = ticketUrl (req_body req).
Proof.
  intros Hin Hent.
  pose proof (post_root_cases env req d) as Hc.
  remember (run (post_root env req) d) as out eqn:Hout.
  destruct Hc as [Hs | e Hs Hcat | entityRef Hs Hcat Hn failed | entityRef id Hs Hcat Hn row0];
    simpl in Hin.
  - destruct Hin as [Hin | []]. discriminate.
  - destruct Hin as [Hin | []]. discriminate.
  - destruct Hin as [Hin | [Hin | [Hin | []]]]; discriminate.
  - assert (Hnone : entityRef ≫= (fun e => annotations (metadata e)) = None).
    { destruct Hent as [H | (e & H & Ha)]; rewrite H in Hcat; inversion Hcat; subst.
      - reflexivity.
      - simpl. exact Ha. }
    unfold after_block in *. rewrite Hnone in *. simpl in Hin.
    destruct Hin as [Hin | [Hin | [Hin | []]]]; try discriminate.
    inversion Hin; subst r row. exists id. subst row0.
    split; [reflexivity|]. split; [reflexivity|].
    simpl. apply prepared_ticketUrl.
Qed.

(** C4: the record handed to the store. A summary longer than 255
    characters goes, whole, in front of the description (separated by an
    empty line), so that its overflow is in the description, and the
    summary becomes
    [<Feedback|Issue> reported by <user> for <entity title or name>];
    a summary of at most 255 characters and its description are handed
    over as submitted. The stored row carries the same two fields. *)
Theorem post_summary_demotion env req d r res s entityRef :
  In (StoreInsert r res) (trace (snd (run (post_root env req) d))) ->
  summary (req_body req) = Some s ->
  getEntityByRef env (projectId (req_body req)) = Ok entityRef ->
  (255 < String.length s ->
   description r =
     Some (s +:+ JS.nl +:+ JS.nl +:+ default EmptyString (description (req_body req))) /\
   JS.includes (overflow s) (JS.tpl (description r)) = true /\
   exists label user target,
     summary r = Some (label +:+ " reported by " +:+ user +:+ " for " +:+ target) /\
     (label = "Feedback" \/ label = "Issue") /\
     (feedbackType (req_body req) = Some "FEEDBACK" <-> label = "Feedback") /\
     user = JS.tpl (JS.second_segment (createdBy (req_body req))) /\
     (forall e t, entityRef = Some e -> title (metadata e) = Some t ->
                  t <> EmptyString -> target = t) /\
     (forall e, entityRef = Some e ->
                title (metadata e) = None \/ title (metadata e) = Some EmptyString ->
                target = name (metadata e))) /\
  (String.length s <= 255 ->
   summary r = Some s /\ description r = description (req_body req)) /\
  (forall row, res = Some row ->
               summary row = summary r /\ description row = description r).
Proof.
  intros Hin Hsum Hcat0.
  assert (Hr : r = prepared env req entityRef /\
               (forall row, res = Some row -> exists id, row = set_feedbackId (Some id) r)).
  { pose proof (post_root_cases env req d) as Hc.
    remember (run (post_root env req) d) as out eqn:Hout.
    destruct Hc as [Hs | e Hs Hcat | e' Hs Hcat Hn failed | e' id Hs Hcat Hn row0];
      simpl in Hin.
    - destruct Hin as [Hin | []]. discriminate.
    - destruct Hin as [Hin | []]. discriminate.
    - rewrite Hcat in Hcat0. inversion Hcat0; subst e'.
      destruct Hin as [Hin | [Hin | [Hin | []]]]; try discriminate.
      inversion Hin; subst. split; [reflexivity|]. intros row Hrow. discriminate.
    - rewrite Hcat in Hcat0. inversion Hcat0; subst e'.
      edestruct (stored_path env req entityRef row0) as (evs & Ht & _ & HF);
        [ | rewrite Ht in Hin ]; [reflexivity |].
      simpl in Hin.
      destruct Hin as [Hin | [Hin | [Hin | Hin]]]; try discriminate.
      + inversion Hin; subst. split; [reflexivity|].
        intros row Hrow. inversion Hrow. exists id. reflexivity.
      + exfalso. revert Hin. apply (Forall_not_In is_insert); [| reflexivity].
        eapply Forall_impl; [exact HF | simpl; tauto]. }
  destruct Hr as [-> Hrow].
  split; [| split];
    [ unfold prepared, demote; cbv zeta; simpl summary; rewrite Hsum ..
    | intros row Hr; destruct (Hrow row Hr) as (id & ->); split; reflexivity ].
  - intros Hlen. apply Nat.ltb_lt in Hlen. rewrite Hlen. simpl.
    split; [reflexivity|].
    split; [apply includes_extend, includes_drop_chars|].
    exists (feedbackTypeLabel (req_body req)),
           (JS.tpl (JS.second_segment (createdBy (req_body req)))),
           (JS.tpl (title_or_name entityRef)).
    split; [reflexivity|].
    unfold feedbackTypeLabel, title_or_name.
    split; [| split; [| split; [reflexivity | split]]].
    + destruct (feedbackType (req_body req)) as [t|]; [destruct (String.eqb t "FEEDBACK")|]; auto.
    + destruct (feedbackType (req_body req)) as [t|]; [destruct (String.eqb_spec t "FEEDBACK")|];
        split; intros H; try reflexivity; try discriminate; congruence.
    + intros e t -> Ht Hne. rewrite Ht. simpl.
      destruct (String.eqb_spec t EmptyString); [contradiction | reflexivity].
    + intros e -> [Ht | Ht]; rewrite Ht; reflexivity.
  - intros Hlen. apply Nat.ltb_ge in Hlen. rewrite Hlen. simpl. rewrite Hsum. auto.
Qed.

(** ** Running a handler step by step *)

Lemma bind_ret {A B} (a : A) (k : A -> M B) w : bind (ret a) k w = k a w.
Proof. reflexivity. Qed.

Lemma bind_throw {A B} (e : Error) (k : A -> M B) w : bind (throw e) k w = (Threw e, w).
Proof. reflexivity. Qed.

Lemma bind_emit {B} (e : Event) (k : unit -> M B) w : bind (emit e) k w = k tt (push e w).
Proof. reflexivity. Qed.

Lemma bind_await {A B} (r : Result A) (k : A -> M B) w :
  bind (await r) k w =
  match r with
  | Ok a => k a w
  | Fails e => (Threw e, w)
  end.
Proof. destruct r; reflexivity. Qed.

Lemma bind_assoc {A B C} (m : M A) (k : A -> M B) (k' : B -> M C) w :
  bind (bind m k) k' w = bind m (fun a => bind (k a) k') w.
Proof. unfold bind. destruct (m w) as [[a|e] w']; reflexivity. Qed.

Ltac mred :=
  repeat first
    [ rewrite bind_assoc | rewrite bind_emit | rewrite bind_await
    | rewrite bind_ret | rewrite bind_throw ].

(** ** The block after the response, when it runs to its end *)

Lemma jiraBranch_done env anns reporterEmail appTitle label route r w r' w' :
  jiraBranch env anns reporterEmail appTitle label route r w = (Done r', w') ->
  exists cfgs c username descr t key res,
    integrations_jira (config env) = Some cfgs /\
    serviceConfig_post (anns !! "feedback/host") cfgs = Some c /\
    getJiraUsernameByEmail env (host c) reporterEmail (token c) = Ok username /\
    description r = Some descr /\
    tag r = Some t /\
    createJiraTicket env (host c) (token c) (anns !! "jira/project-key") (summary r)
      (jiraDescription descr username reporterEmail appTitle label route r)
      (JS.join "-" (JS.split " " (JS.toLowerCase t))) (feedbackType r) username = Ok key /\
    r' = set_ticketUrl (Some (host c +:+ "/browse/" +:+ key)) r /\
    updateFeedback env r'
      (push (CreateTicket (host c) (token c) (anns !! "jira/project-key") (summary r)
               (jiraDescription descr username reporterEmail appTitle label route r)
               (JS.join "-" (JS.split " " (JS.toLowerCase t))) (feedbackType r) username)
         (push (JiraUsernameLookup (host c) reporterEmail (token c)) w)) = (Done res, w').
Proof.
  unfold jiraBranch, getConfigArray_jira, jiraUsernameByEmail, jiraTicket.
  destruct (integrations_jira (config env)) as [cfgs|] eqn:Hcfg; mred; [|discriminate].
  destruct (serviceConfig_post (anns !! "feedback/host") cfgs) as [c|] eqn:Hsc; [|discriminate].
  cbv zeta. mred.
  destruct (getJiraUsernameByEmail env (host c) reporterEmail (token c)) as [username|e] eqn:Hu;
    [|discriminate].
  destruct (description r) as [descr|] eqn:Hd; [|discriminate].
  destruct (tag r) as [t|] eqn:Ht; [|discriminate].
  mred.
  match goal with |- context [createJiraTicket ?x1 ?x2 ?x3 ?x4 ?x5 ?x6 ?x7 ?x8 ?x9] =>
    destruct (createJiraTicket x1 x2 x3 x4 x5 x6 x7 x8 x9) as [key|err] eqn:Hk end;
    [|discriminate].
  unfold bind.
  match goal with |- context [updateFeedback ?e ?x ?y] =>
    destruct (updateFeedback e x y) as [[res|err] w1] eqn:Hup end; [|discriminate].
  unfold ret. intros H. inversion H; subst r' w'.
  exists cfgs, c, username, descr, t, key, res.
  repeat split; assumption.
Qed.

Lemma afterResponse_done env anns label route r w w' :
  afterResponse env anns label route r w = (Done tt, w') ->
  exists reporter p appTitle type r1 w1,
    getEntityByRef env (createdBy r) = Ok (Some reporter) /\
    profile reporter = Some p /\
    app_title (config env) = Some appTitle /\
    anns !! "feedback/type" = Some type /\
    (if jira_condition type r
     then jiraBranch env anns (email p) appTitle label route r
            (push (CatalogLookup (createdBy r)) w) = (Done r1, w1)
     else r1 = r /\ w1 = push (CatalogLookup (createdBy r)) w) /\
    w' = if mail_condition type (anns !! "feedback/email-to")
         then push (SendMail (notification env (email p) (anns !! "feedback/email-to")
                                appTitle label route r1)) w1
         else w1.
Proof.
  unfold afterResponse, catalog, getString_app_title. cbv zeta. mred.
  destruct (getEntityByRef env (createdBy r)) as [[reporter|]|err] eqn:Hrep;
    try discriminate.
  change (Some reporter ≫= profile) with (profile reporter).
  destruct (profile reporter) as [p|] eqn:Hp; [|discriminate].
  destruct (app_title (config env)) as [appTitle|] eqn:Happ; mred; [|discriminate].
  destruct (anns !! "feedback/type") as [type|] eqn:Hty; [|discriminate].
  fold (jira_condition type r). fold (mail_condition type (anns !! "feedback/email-to")).
  intros H.
  destruct (jira_condition type r) eqn:Hj.
  - unfold bind in H.
    destruct (jiraBranch env anns (email p) appTitle label route r
                (push (CatalogLookup (createdBy r)) w)) as [[r1|err] w1] eqn:Hjb;
      [|discriminate].
    exists reporter, p, appTitle, type, r1, w1. rewrite Hj.
    repeat (split; [first [assumption | reflexivity]|]).
    destruct (mail_condition type (anns !! "feedback/email-to"));
      unfold sendMail, emit, ret in H; inversion H; reflexivity.
  - rewrite bind_ret in H.
    exists reporter, p, appTitle, type, r, (push (CatalogLookup (createdBy r)) w).
    rewrite Hj.
    repeat (split; [first [assumption | reflexivity | split; reflexivity]|]).
    destruct (mail_condition type (anns !! "feedback/email-to"));
      unfold sendMail, emit, ret in H; inversion H; reflexivity.
Qed.

Lemma or_else_same (a : option string) : or_else a a = a.
Proof. destruct a; reflexivity. Qed.

(** Writing the ticket URL of a row over that very row. *)
Lemma merge_ticketUrl (u : string) (row : FeedbackModel) :
  merge (set_ticketUrl (Some u) row) row = set_ticketUrl (Some u) row.
Proof.
  unfold merge, set_ticketUrl. simpl. rewrite !or_else_same. reflexivity.
Qed.

Lemma updateFeedback_trace env r w res w' :
  updateFeedback env r w = (Done res, w') ->
  sent w' = sent w /\ trace w' = trace w ++ [StoreUpdate r res].
Proof.
  unfold updateFeedback. cbv zeta.
  destruct (feedbackId r) as [id|];
    [destruct (db w !! id); [destruct (updateSucceeds env (db w) r)|]|];
    intros H; inversion H; subst; simpl; auto.
Qed.

(** The two results of an update of a row that is there. *)
Lemma updateFeedback_row env r id old w res w' :
  feedbackId r = Some id ->
  db w !! id = Some old ->
  updateFeedback env r w = (Done res, w') ->
  (updateSucceeds env (db w) r = true /\
   res = Some (merge r old) /\ db w' = <[id := merge r old]> (db w)) \/
  (updateSucceeds env (db w) r = false /\ res = None /\ db w' = db w).
Proof.
  unfold updateFeedback. cbv zeta. intros -> ->.
  destruct (updateSucceeds env (db w) r);
    intros H; inversion H; subst; simpl; auto.
Qed.

Lemma demote_createdBy label e r : createdBy (demote label e r) = createdBy r.
Proof.
  unfold demote. destruct (summary r) as [s|]; [|reflexivity].
  destruct (Nat.ltb 255 (String.length s)); reflexivity.
Qed.

Lemma demote_projectId label e r : projectId (demote label e r) = projectId r.
Proof.
  unfold demote. destruct (summary r) as [s|]; [|reflexivity].
  destruct (Nat.ltb 255 (String.length s)); reflexivity.
Qed.

Lemma prepared_createdBy env req e :
  createdBy (prepared env req e) = createdBy (req_body req).
Proof. unfold prepared. cbv zeta. rewrite demote_createdBy. reflexivity. Qed.

Lemma prepared_projectId env req e :
  projectId (prepared env req e) = projectId (req_body req).
Proof. unfold prepared. cbv zeta. rewrite demote_projectId. reflexivity. Qed.

Lemma demote_tag label e r : tag (demote label e r) = tag r.
Proof.
  unfold demote. destruct (summary r) as [s|]; [|reflexivity].
  destruct (Nat.ltb 255 (String.length s)); reflexivity.
Qed.

Lemma prepared_tag env req e : tag (prepared env req e) = tag (req_body req).
Proof. unfold prepared. cbv zeta. rewrite demote_tag. reflexivity. Qed.

(** With a tag of positive sentiment the block makes no ticket call and
    no update. *)
Lemma afterResponse_positive env anns label route r :
  positive_tag (tag r) = true ->
  steps (fun e => is_ticket_call e = false /\ is_update e = false)
    (afterResponse env anns label route r).
Proof.
  intros Hpos. unfold afterResponse. rewrite Hpos.
  steps_tac; simpl; auto;
    match goal with
    | H : _ && negb _ = true |- _ =>
        simpl in H; rewrite ?Hpos, andb_false_r in H; discriminate
    end.
Qed.

(** A run in which the store returned a row is a run of the stored
    path. *)
Lemma post_stored_inv env req d r row :
  In (StoreInsert r (Some row)) (trace (snd (run (post_root env req) d))) ->
  exists entityRef id,
    getEntityByRef env (projectId (req_body req)) = Ok entityRef /\
    r = prepared env req entityRef /\
    row = set_feedbackId (Some id) r /\
    run (post_root env req) d =
      after_block env req entityRef row
        (mkWorld (<[id := row]> d) (Some (201%Z, created req row))
           [CatalogLookup (projectId (req_body req));
            StoreInsert r (Some row);
            Respond 201 (created req row)]).
Proof.
  intros Hin.
  pose proof (post_root_cases env req d) as Hc.
  remember (run (post_root env req) d) as out eqn:Hout.
  destruct Hc as [Hs | e Hs Hcat | entityRef Hs Hcat Hn failed | entityRef id Hs Hcat Hn row0];
    simpl in Hin.
  - destruct Hin as [Hin | []]. discriminate.
  - destruct Hin as [Hin | []]. discriminate.
  - destruct Hin as [Hin | [Hin | [Hin | []]]]; discriminate.
  - edestruct (stored_path env req entityRef row0) as (evs & Ht & _ & HF);
      [ | rewrite Ht in Hin ]; [reflexivity |].
    simpl in Hin.
    destruct Hin as [Hin | [Hin | [Hin | Hin]]]; try discriminate.
    + inversion Hin; subst r row. exists entityRef, id. auto.
    + exfalso. revert Hin. apply (Forall_not_In is_insert); [| reflexivity].
      eapply Forall_impl; [exact HF | simpl; tauto].
Qed.

Lemma after_block_annotated env req e anns row :
  annotations (metadata e) = Some anns ->
  after_block env req (Some e) row =
    afterResponse env anns (feedbackTypeLabel (req_body req))
      (entityRoute (req_origin req) (Some e)) row.
Proof. intros H. unfold after_block. simpl. rewrite H. reflexivity. Qed.

(** *** When the block does run to its end

    It is enough that the reporter is in the catalog with a profile,
    that [app.title] is configured, that the entity has a
    [feedback/type], and, where a ticket is to be filed, that a Jira
    entry is configured, the row has a description and a tag, and the
    tracker answers. *)

Lemma serviceConfig_post_some (h : option string) (cfgs : list JiraConfig) :
  cfgs <> [] -> exists c, serviceConfig_post h cfgs = Some c.
Proof.
  intros Hne. unfold serviceConfig_post.
  destruct (List.find _ cfgs) as [c|]; [eauto|].
  destruct cfgs as [|c cfgs]; [contradiction | exists c; reflexivity].
Qed.

Lemma updateFeedback_done env r w :
  exists res w', updateFeedback env r w = (Done res, w').
Proof.
  unfold updateFeedback. cbv zeta.
  destruct (feedbackId r) as [id|];
    [destruct (db w !! id); [destruct (updateSucceeds env (db w) r)|]|]; eauto.
Qed.

Lemma afterResponse_completes env anns label route r reporter p appTitle type w :
  getEntityByRef env (createdBy r) = Ok (Some reporter) ->
  profile reporter = Some p ->
  app_title (config env) = Some appTitle ->
  anns !! "feedback/type" = Some type ->
  (jira_condition type r = true ->
   exists cfgs descr t,
     integrations_jira (config env) = Some cfgs /\ cfgs <> [] /\
     description r = Some descr /\ tag r = Some t) ->
  (forall h m tok, exists u, getJiraUsernameByEmail env h m tok = Ok u) ->
  (forall h tok pk sm dsc tg ft u, exists key,
     createJiraTicket env h tok pk sm dsc tg ft u = Ok key) ->
  fst (afterResponse env anns label route r w) = Done tt.
Proof.
  intros Hrep Hp Happ Hty Hjira Hu Hk.
  unfold afterResponse, catalog, getString_app_title. cbv zeta. mred.
  rewrite Hrep. change (Some reporter ≫= profile) with (profile reporter).
  rewrite Hp, Happ, Hty. mred.
  fold (jira_condition type r). fold (mail_condition type (anns !! "feedback/email-to")).
  destruct (jira_condition type r) eqn:Hj.
  - destruct (Hjira eq_refl) as (cfgs & descr & t & Hcfg & Hne & Hd & Ht).
    destruct (serviceConfig_post_some (anns !! "feedback/host") cfgs Hne) as (c & Hc).
    unfold jiraBranch, getConfigArray_jira, jiraUsernameByEmail, jiraTicket.
    rewrite Hcfg. mred. rewrite Hc. cbv zeta. mred.
    destruct (Hu (host c) (email p) (token c)) as (u & ->).
    rewrite Hd, Ht. mred.
    match goal with |- context [createJiraTicket ?x1 ?x2 ?x3 ?x4 ?x5 ?x6 ?x7 ?x8 ?x9] =>
      destruct (Hk x2 x3 x4 x5 x6 x7 x8 x9) as (key & ->) end.
    rewrite bind_assoc.
    match goal with |- context [bind (updateFeedback ?e ?x) _ ?y] =>
      destruct (updateFeedback_done e x y) as (res & w1 & Hupd) end.
    unfold bind at 1. rewrite Hupd. rewrite bind_ret.
    destruct (mail_condition type (anns !! "feedback/email-to")); reflexivity.
  - rewrite bind_ret.
    destruct (mail_condition type (anns !! "feedback/email-to")); reflexivity.
Qed.

Lemma post_root_completes env req d e anns reporter p appTitle type :
  summary_empty (req_body req) = false ->
  getEntityByRef env (projectId (req_body req)) = Ok (Some e) ->
  annotations (metadata e) = Some anns ->
  is_Some (newFeedbackId env d (prepared env req (Some e))) ->
  getEntityByRef env (createdBy (req_body req)) = Ok (Some reporter) ->
  profile reporter = Some p ->
  app_title (config env) = Some appTitle ->
  anns !! "feedback/type" = Some type ->
  (jira_condition type (req_body req) = true ->
   exists cfgs descr t,
     integrations_jira (config env) = Some cfgs /\ cfgs <> [] /\
     description (prepared env req (Some e)) = Some descr /\
     tag (req_body req) = Some t) ->
  (forall h m tok, exists u, getJiraUsernameByEmail env h m tok = Ok u) ->
  (forall h tok pk sm dsc tg ft u, exists key,
     createJiraTicket env h tok pk sm dsc tg ft u = Ok key) ->
  fst (run (post_root env req) d) = Done tt.
Proof.
  intros Hs Hcat Hann [id Hid] Hrep Hp Happ Hty Hjira Hu Hk.
  pose proof (post_root_cases env req d) as Hc.
  remember (run (post_root env req) d) as out eqn:Hout.
  destruct Hc as [Hs' | err Hs' Hcat' | e' Hs' Hcat' Hn failed | e' id' Hs' Hcat' Hn row];
    try congruence.
  rewrite Hcat in Hcat'. inversion Hcat'; subst e'. clear Hcat'.
  rewrite (after_block_annotated env req e anns row Hann).
  assert (Htag : tag row = tag (req_body req)) by (apply prepared_tag).
  apply (afterResponse_completes env anns _ _ row reporter p appTitle type); auto.
  - unfold row. simpl. rewrite prepared_createdBy. exact Hrep.
  - unfold jira_condition in *. rewrite Htag. intros Hj.
    destruct (Hjira Hj) as (cfgs & descr & t & H1 & H2 & H3 & H4).
    exists cfgs, descr, t. rewrite H4. auto.
Qed.

(** ** Ticket creation *)

(** C3, as the code has it. For a stored submission whose entity is
    annotated [feedback/type] = JIRA (in any letter case):
    - when the tag matches [Excellent|Good], no ticket-creation call and
      no update is made, and the table keeps the row of the insert, its
      [ticketUrl] as submitted;
    - when the tag does not match and the handler runs to its end, a
      ticket-creation call goes to the resolved host, and the store is
      then asked once to update the row with [ticketUrl] =
      [<host>/browse/<key>] for the key the tracker returned. The handler
      does not look at the result of that update (line 137): when the
      store takes it, the table holds the row with that URL; when the
      store gives its falsy result, the table keeps the row of the
      insert, and the handler goes on all the same. *)
Theorem post_jira_ticket env req d r row e anns type :
  In (StoreInsert r (Some row)) (trace (snd (run (post_root env req) d))) ->
  getEntityByRef env (projectId (req_body req)) = Ok (Some e) ->
  annotations (metadata e) = Some anns ->
  anns !! "feedback/type" = Some type ->
  JS.toUpperCase type = "JIRA" ->
  (positive_tag (tag (req_body req)) = true ->
   Forall (fun ev => is_ticket_call ev = false /\ is_update ev = false)
     (trace (snd (run (post_root env req) d))) /\
   exists id, feedbackId row = Some id /\
              db (snd (run (post_root env req) d)) !! id = Some row /\
              ticketUrl row = ticketUrl (req_body req)) /\
  (positive_tag (tag (req_body req)) = false ->
   fst (run (post_root env req) d) = Done tt ->
   exists cfgs c key descr tg username pre suf id res,
     integrations_jira (config env) = Some cfgs /\
     serviceConfig_post (anns !! "feedback/host") cfgs = Some c /\
     createJiraTicket env (host c) (token c) (anns !! "jira/project-key") (summary row)
       descr tg (feedbackType row) username = Ok key /\
     let updated := set_ticketUrl (Some (host c +:+ "/browse/" +:+ key)) row in
     trace (snd (run (post_root env req) d)) =
       pre ++
       [CreateTicket (host c) (token c) (anns !! "jira/project-key") (summary row)
          descr tg (feedbackType row) username;
        StoreUpdate updated res] ++ suf /\
     Forall (fun ev => is_ticket_call ev = false /\ is_update ev = false) pre /\
     Forall (fun ev => is_ticket_call ev = false /\ is_update ev = false) suf /\
     feedbackId row = Some id /\
     ((updateSucceeds env (<[id := row]> d) updated = true /\
       res = Some updated /\
       db (snd (run (post_root env req) d)) !! id = Some updated) \/
      (updateSucceeds env (<[id := row]> d) updated = false /\
       res = None /\
       db (snd (run (post_root env req) d)) !! id = Some row))).
Proof.
  intros Hin Hcat Hann Hty Hup.
  destruct (post_stored_inv env req d r row Hin) as (entityRef & id & Hcat' & Hr & Hrow & Hrun).
  rewrite Hcat in Hcat'. inversion Hcat'; subst entityRef. clear Hcat'.
  rewrite (after_block_annotated env req e anns row Hann) in Hrun.
  assert (Htag : tag row = tag (req_body req)).
  { rewrite Hrow, Hr. simpl. apply prepared_tag. }
  assert (Hid : feedbackId row = Some id) by (rewrite Hrow; reflexivity).
  split.
  - intros Hpos. rewrite Hrun.
    rewrite <- Htag in Hpos.
    match goal with |- context [afterResponse ?a ?b ?c ?d ?r ?w] =>
      destruct (afterResponse_positive a b c d r Hpos w) as (evs & _ & Ht & HF & Hdb)
    end.
    rewrite Ht. simpl trace. split.
    + repeat (apply Forall_cons; split; [simpl; auto|]). exact HF.
    + exists id. split; [exact Hid|]. rewrite Hdb.
      * simpl. rewrite lookup_insert_eq. split; [reflexivity|].
        rewrite Hrow, Hr. simpl. apply prepared_ticketUrl.
      * eapply Forall_impl; [exact HF | simpl; tauto].
  - intros Hneg Hdone. rewrite Hrun in Hdone |- *.
    match type of Hdone with fst (?m ?w) = _ =>
      destruct (m w) as [o w'] eqn:Hafter end.
    simpl in Hdone. subst o.
    apply afterResponse_done in Hafter
      as (reporter & p & appTitle & type' & r1 & w1 & Hrep & Hp & Happ & Hty' & Hj & Hw').
    rewrite Hty in Hty'. inversion Hty'; subst type'. clear Hty'.
    assert (Hjc : jira_condition type row = true).
    { unfold jira_condition. rewrite Hup, Htag, Hneg. reflexivity. }
    rewrite Hjc in Hj.
    apply jiraBranch_done in Hj
      as (cfgs & c & username & descr & t & key & res & Hcfg & Hsc & Hu & Hd & Ht & Hk & Hr1 & Hupd).
    pose proof (updateFeedback_trace _ _ _ _ _ Hupd) as [_ Htr].
    eapply (updateFeedback_row _ _ id row) in Hupd;
      [ | subst r1; exact Hid | simpl; apply lookup_insert_eq ].
    subst r1. rewrite merge_ticketUrl in Hupd. simpl db in Hupd.
    exists cfgs, c, key,
      (jiraDescription descr username (email p) appTitle (feedbackTypeLabel (req_body req))
         (entityRoute (req_origin req) (Some e)) row),
      (JS.join "-" (JS.split " " (JS.toLowerCase t))), username,
      [CatalogLookup (projectId (req_body req)); StoreInsert r (Some row);
       Respond 201 (created req row); CatalogLookup (createdBy row);
       JiraUsernameLookup (host c) (email p) (token c)],
      (if mail_condition type (anns !! "feedback/email-to")
       then [SendMail (notification env (email p) (anns !! "feedback/email-to")
                         appTitle (feedbackTypeLabel (req_body req))
                         (entityRoute (req_origin req) (Some e))
                         (set_ticketUrl (Some (host c +:+ "/browse/" +:+ key)) row))]
       else []), id, res.
    split; [exact Hcfg|]. split; [exact Hsc|]. split; [exact Hk|].
    cbv zeta. simpl snd.
    assert (Htrace : trace w' = trace w1 ++
              (if mail_condition type (anns !! "feedback/email-to")
               then [SendMail (notification env (email p) (anns !! "feedback/email-to")
                                 appTitle (feedbackTypeLabel (req_body req))
                                 (entityRoute (req_origin req) (Some e))
                                 (set_ticketUrl (Some (host c +:+ "/browse/" +:+ key)) row))]
               else [])).
    { rewrite Hw'. destruct (mail_condition type (anns !! "feedback/email-to")); simpl.
      - reflexivity.
      - rewrite app_nil_r. reflexivity. }
    split; [| split; [| split; [| split]]].
    + rewrite Htrace, Htr. simpl. reflexivity.
    + repeat (apply Forall_cons; split; [simpl; auto|]). apply Forall_nil. exact I.
    + destruct (mail_condition type (anns !! "feedback/email-to"));
        repeat (apply Forall_cons; split; [simpl; auto|]); apply Forall_nil; exact I.
    + exact Hid.
    + assert (Hdbw : db w' = db w1).
      { rewrite Hw'. destruct (mail_condition type (anns !! "feedback/email-to"));
          reflexivity. }
      rewrite Hdbw.
      destruct Hupd as [(Hok & Hres & Hdb) | (Hno & Hres & Hdb)]; [left | right];
        (split; [assumption|]); (split; [exact Hres|]); rewrite Hdb;
        apply lookup_insert_eq.
Qed.

(** ** Mail notification *)

Lemma prefix_append (a b : string) : String.prefix a (a +:+ b) = true.
Proof.
  induction a as [|c a IH]; simpl.
  - destruct b; reflexivity.
  - destruct (ascii_dec c c); [exact IH | contradiction].
Qed.

Lemma includes_prefix (a b : string) : JS.includes a (a +:+ b) = true.
Proof.
  destruct a as [|c a].
  - destruct b; reflexivity.
  - change (String.prefix (String c a) (String c a +:+ b) ||
            JS.includes (String c a) (a +:+ b) = true).
    rewrite prefix_append. reflexivity.
Qed.

Lemma includes_append (a p s : string) :
  JS.includes a s = true -> JS.includes a (p +:+ s) = true.
Proof.
  intros H. induction p as [|c p IH]; simpl.
  - exact H.
  - fold JS.includes. rewrite IH. apply orb_true_r.
Qed.

(** The subject of lines 144-146 holds the tag and the project name. *)
Lemma mailSubject_includes label r :
  (forall t, tag r = Some t -> JS.includes t (mailSubject label r) = true) /\
  (forall n, JS.second_segment (projectId r) = Some n ->
             JS.includes n (mailSubject label r) = true).
Proof.
  unfold mailSubject. split.
  - intros t ->. apply includes_prefix.
  - intros n ->. simpl JS.tpl.
    do 4 apply includes_append. apply includes_same.
Qed.

(** C8, as the code has it. For a stored submission whose handler runs
    to its end and whose entity has [feedback/type] = MAIL (in any letter
    case) or a non-empty [feedback/email-to] annotation, exactly one mail
    is sent; it goes to the email of the reporter's catalog profile, its
    reply-to is the annotation, and its subject is
    [<tag> - <Feedback|Issue> reported for <project name>], the project
    name being the part of [projectId] after the first slash. *)
Theorem post_mail_notification env req d r row e anns :
  In (StoreInsert r (Some row)) (trace (snd (run (post_root env req) d))) ->
  getEntityByRef env (projectId (req_body req)) = Ok (Some e) ->
  annotations (metadata e) = Some anns ->
  fst (run (post_root env req) d) = Done tt ->
  (exists type, anns !! "feedback/type" = Some type /\ JS.toUpperCase type = "MAIL") \/
  JS.truthy (anns !! "feedback/email-to") = true ->
  exists reporter p m,
    getEntityByRef env (createdBy (req_body req)) = Ok (Some reporter) /\
    profile reporter = Some p /\
    List.filter is_mail (trace (snd (run (post_root env req) d))) = [SendMail m] /\
    to m = email p /\
    replyTo m = anns !! "feedback/email-to" /\
    subject m =
      JS.tpl (tag (req_body req)) +:+ " - " +:+ feedbackTypeLabel (req_body req) +:+
      " reported for " +:+ JS.tpl (JS.second_segment (projectId (req_body req))) /\
    (forall t, tag (req_body req) = Some t -> JS.includes t (subject m) = true) /\
    (forall n, JS.second_segment (projectId (req_body req)) = Some n ->
               JS.includes n (subject m) = true).
Proof.
  intros Hin Hcat Hann Hdone Hcond.
  destruct (post_stored_inv env req d r row Hin) as (entityRef & id & Hcat' & Hr & Hrow & Hrun).
  rewrite Hcat in Hcat'. inversion Hcat'; subst entityRef. clear Hcat'.
  rewrite (after_block_annotated env req e anns row Hann) in Hrun.
  assert (Htag : tag row = tag (req_body req)).
  { rewrite Hrow, Hr. simpl. apply prepared_tag. }
  assert (Hpid : projectId row = projectId (req_body req)).
  { rewrite Hrow, Hr. simpl. apply prepared_projectId. }
  assert (Hby : createdBy row = createdBy (req_body req)).
  { rewrite Hrow, Hr. simpl. apply prepared_createdBy. }
  rewrite Hrun in Hdone |- *.
  match type of Hdone with fst (?m ?w) = _ =>
    destruct (m w) as [o w'] eqn:Hafter end.
  simpl in Hdone. subst o.
  apply afterResponse_done in Hafter
    as (reporter & p & appTitle & type & r1 & w1 & Hrep & Hp & Happ & Hty & Hj & Hw').
  assert (Hmail : mail_condition type (anns !! "feedback/email-to") = true).
  { unfold mail_condition. destruct Hcond as [(type' & Hty' & Hup) | Htr].
    - rewrite Hty in Hty'. inversion Hty'; subst type'. rewrite Hup. reflexivity.
    - rewrite Htr. apply orb_true_r. }
  rewrite Hmail in Hw'.
  assert (Hr1 : tag r1 = tag row /\ projectId r1 = projectId row /\
                List.filter is_mail (trace w1) = []).
  { destruct (jira_condition type row).
    - apply jiraBranch_done in Hj
        as (cfgs & c & username & descr & t & key & res & _ & _ & _ & _ & _ & _ & Hr1 & Hupd).
      apply updateFeedback_trace in Hupd as [_ Htr].
      rewrite Htr. subst r1. simpl. auto.
    - destruct Hj as [-> ->]. simpl. auto. }
  destruct Hr1 as (Ht1 & Hp1 & Hnomail).
  rewrite Hby in Hrep.
  exists reporter, p,
    (notification env (email p) (anns !! "feedback/email-to") appTitle
       (feedbackTypeLabel (req_body req)) (entityRoute (req_origin req) (Some e)) r1).
  split; [exact Hrep|]. split; [exact Hp|]. split.
  { rewrite Hw'. simpl snd. simpl trace. rewrite List.filter_app, Hnomail. reflexivity. }
  split; [reflexivity|]. split; [reflexivity|].
  simpl subject. unfold mailSubject at 1. rewrite Ht1, Hp1, Htag, Hpid.
  split; [reflexivity|].
  rewrite <- Htag, <- Hpid, <- Ht1, <- Hp1.
  apply mailSubject_includes.
Qed.

(** ** Host resolution *)

Lemma find_first_match (h : option string) (pre : list JiraConfig) c suf :
  h = Some (host c) ->
  Forall (fun c' => h <> Some (host c')) pre ->
  List.find (fun hostConfig => bool_decide (h = Some (host hostConfig))) (pre ++ c :: suf)
  = Some c.
Proof.
  intros Hc Hpre. induction Hpre as [|c' pre Hne _ IH]; simpl.
  - rewrite bool_decide_eq_true_2; [reflexivity | exact Hc].
  - rewrite bool_decide_eq_false_2; [exact IH | exact Hne].
Qed.

Lemma find_no_match (h : option string) (cfgs : list JiraConfig) :
  Forall (fun c => h <> Some (host c)) cfgs ->
  List.find (fun hostConfig => bool_decide (h = Some (host hostConfig))) cfgs = None.
Proof.
  intros H. induction H as [|c cfgs Hne _ IH]; simpl.
  - reflexivity.
  - rewrite bool_decide_eq_false_2; [exact IH | exact Hne].
Qed.

Lemma steps_bind_ret (P : Event -> Prop) {A B} (a : A) (k : A -> M B) :
  steps P (k a) -> steps P (bind (ret a) k).
Proof. intros H w. exact (H w). Qed.

Lemma jiraBranch_uses env anns reporterEmail appTitle label route r cfgs :
  integrations_jira (config env) = Some cfgs ->
  steps (uses_entry (serviceConfig_post (anns !! "feedback/host") cfgs))
    (jiraBranch env anns reporterEmail appTitle label route r).
Proof.
  intros Hcfg. unfold jiraBranch, getConfigArray_jira. rewrite Hcfg.
  apply steps_bind_ret.
  destruct (serviceConfig_post (anns !! "feedback/host") cfgs) as [[h tok]|] eqn:Hsc;
    steps_tac; simpl; auto.
Qed.

Lemma afterResponse_uses env anns label route r cfgs :
  integrations_jira (config env) = Some cfgs ->
  steps (uses_entry (serviceConfig_post (anns !! "feedback/host") cfgs))
    (afterResponse env anns label route r).
Proof.
  intros Hcfg. unfold afterResponse. cbv zeta.
  apply steps_bind; [unfold catalog; steps_tac; exact I | intros reporter].
  destruct (reporter ≫= profile) as [p|]; [|apply steps_throw].
  apply steps_bind; [unfold getString_app_title; steps_tac | intros appTitle].
  destruct (anns !! "feedback/type") as [type|]; [|apply steps_throw].
  apply steps_bind.
  - destruct (_ && _); [apply jiraBranch_uses; exact Hcfg | apply steps_ret].
  - intros r1. destruct (_ || _); [apply steps_emit; exact I | apply steps_ret].
Qed.

Lemma post_root_uses env req d entityRef cfgs :
  getEntityByRef env (projectId (req_body req)) = Ok entityRef ->
  integrations_jira (config env) = Some cfgs ->
  Forall (uses_entry (serviceConfig_post (annotation_of entityRef "feedback/host") cfgs))
    (trace (snd (run (post_root env req) d))).
Proof.
  intros Hcat Hcfg.
  pose proof (post_root_cases env req d) as Hc.
  remember (run (post_root env req) d) as out eqn:Hout.
  destruct Hc as [Hs | e Hs Hcat' | e' Hs Hcat' Hn failed | e' id Hs Hcat' Hn row];
    simpl; try (repeat constructor).
  rewrite Hcat in Hcat'. inversion Hcat'; subst e'. clear Hcat'.
  unfold after_block.
  destruct entityRef as [e|]; simpl; [|repeat constructor].
  destruct (annotations (metadata e)) as [anns|] eqn:Ha; simpl; [|repeat constructor].
  match goal with |- context [afterResponse ?a ?b ?c ?d ?r ?w] =>
    destruct (afterResponse_uses a b c d r cfgs Hcfg w) as (evs & _ & Ht & HF & _)
  end.
  rewrite Ht. simpl. repeat (constructor; [exact I|]). exact HF.
Qed.

Lemma get_id_ticket_uses env q d pid entityRef cfgs :
  t_projectId q = Some pid ->
  getEntityByRef env (Some pid) = Ok entityRef ->
  integrations_jira (config env) = Some cfgs ->
  Forall (uses_entry (serviceConfig_ticket (annotation_of entityRef "feedback/host") cfgs))
    (trace (snd (run (get_id_ticket env q) d))).
Proof.
  intros Hq Hcat Hcfg. unfold run, get_id_ticket. cbv zeta. rewrite Hq.
  destruct (JS.truthy (t_ticketId q)); [destruct (t_ticketId q) as [tid|]|];
    destruct (JS.truthy (Some pid)); try (simpl; repeat constructor).
  unfold catalog. mred. rewrite Hcat.
  destruct (annotation_of entityRef "feedback/type") as [t|];
    [| simpl; repeat constructor].
  destruct (String.eqb (JS.toLowerCase t) "jira"); [| simpl; repeat constructor].
  unfold getConfigArray_jira. rewrite Hcfg. mred.
  destruct (serviceConfig_ticket (annotation_of entityRef "feedback/host") cfgs)
    as [[h tok]|] eqn:Hsc; [| simpl; repeat constructor].
  unfold ticketDetails. mred. simpl host. simpl token.
  destruct (getTicketDetails env h tid tok); simpl; repeat constructor.
Qed.

(** C7: both endpoints resolve the Jira entry the same way: the first
    configured entry whose [host] equals the entity's [feedback/host]
    annotation, else the first configured entry; and every call either
    endpoint makes to the tracker carries the host and token of the entry
    so resolved. *)
Theorem jira_host_resolution :
  (forall h cfgs, serviceConfig_post h cfgs = serviceConfig_ticket h cfgs) /\
  (forall h pre c suf,
     h = Some (host c) ->
     Forall (fun c' => h <> Some (host c')) pre ->
     serviceConfig_post h (pre ++ c :: suf) = Some c) /\
  (forall h cfgs,
     Forall (fun c => h <> Some (host c)) cfgs ->
     serviceConfig_post h cfgs = head cfgs) /\
  (forall env req d entityRef cfgs,
     getEntityByRef env (projectId (req_body req)) = Ok entityRef ->
     integrations_jira (config env) = Some cfgs ->
     Forall (uses_entry (serviceConfig_post (annotation_of entityRef "feedback/host") cfgs))
       (trace (snd (run (post_root env req) d)))) /\
  (forall env q d pid entityRef cfgs,
     t_projectId q = Some pid ->
     getEntityByRef env (Some pid) = Ok entityRef ->
     integrations_jira (config env) = Some cfgs ->
     Forall (uses_entry (serviceConfig_ticket (annotation_of entityRef "feedback/host") cfgs))
       (trace (snd (run (get_id_ticket env q) d)))).
Proof.
  split; [reflexivity|]. split; [|split; [|split]].
  - intros h pre c suf Hc Hpre. unfold serviceConfig_post.
    rewrite (find_first_match h pre c suf Hc Hpre). reflexivity.
  - intros h cfgs Hno. unfold serviceConfig_post.
    rewrite (find_no_match h cfgs Hno). destruct cfgs; reflexivity.
  - apply post_root_uses.
  - apply get_id_ticket_uses.
Qed.

(** ** Listing *)

Lemma truthy_some (s : string) : s <> EmptyString -> JS.truthy (Some s) = true.
Proof.
  intros H. simpl. destruct (String.eqb_spec s EmptyString); [contradiction | reflexivity].
Qed.

(** C9: [GET /] answers 200; its body is the store's listing with
    [currentPage] = offset / limit + 1 and [pageSize] = limit put on
    top, every other key being the store's; the listing is asked for
    project [all], offset 0 and limit 10 when the query gives none, and
    for the given project and the parsed numbers otherwise. *)
Theorem get_root_page env q d :
  exists projectId offset limit fields,
    (q_projectId q = None -> projectId = "all") /\
    (q_offset q = None -> offset = 0%float) /\
    (q_limit q = None -> limit = 10%float) /\
    (forall s, q_projectId q = Some s -> s <> EmptyString -> projectId = s) /\
    (forall s, q_offset q = Some s -> s <> EmptyString -> offset = JS.parseInt s) /\
    (forall s, q_limit q = Some s -> s <> EmptyString -> limit = JS.parseInt s) /\
    run (get_root env q) d =
      (Done tt, mkWorld d (Some (200%Z, BPage fields)) [Respond 200 (BPage fields)]) /\
    fields !! "currentPage" = Some (VNum (offset / limit + 1)%float) /\
    fields !! "pageSize" = Some (VNum limit) /\
    (forall k, k <> "currentPage" -> k <> "pageSize" ->
       fields !! k =
       getAllFeedbacks env d projectId offset limit (default EmptyString (q_query q)) !! k).
Proof.
  exists (if JS.truthy (q_projectId q) then JS.tpl (q_projectId q) else "all"),
         (if JS.truthy (q_offset q) then JS.parseInt (JS.tpl (q_offset q)) else 0%float),
         (if JS.truthy (q_limit q) then JS.parseInt (JS.tpl (q_limit q)) else 10%float).
  eexists.
  split; [| split; [| split; [| split; [| split; [| split; [| split;
    [unfold run, get_root; cbv zeta; reflexivity |] ]]]]]].
  - intros ->. reflexivity.
  - intros ->. reflexivity.
  - intros ->. reflexivity.
  - intros s -> Hs. rewrite (truthy_some s Hs). reflexivity.
  - intros s -> Hs. rewrite (truthy_some s Hs). reflexivity.
  - intros s -> Hs. rewrite (truthy_some s Hs). reflexivity.
  - split; [| split].
    + rewrite lookup_insert_ne by discriminate. apply lookup_insert_eq.
    + apply lookup_insert_eq.
    + intros k H1 H2. simpl db.
      rewrite lookup_insert_ne by congruence.
      rewrite lookup_insert_ne by congruence. reflexivity.
Qed.

(** ** Deletion *)

(** [GET /:id] on an id the table does not hold: 404. *)
Lemma get_id_absent d id :
  d !! id = None ->
  run (get_id id) d =
    (Done tt,
     mkWorld d (Some (404%Z, BError ("No feedback found for id " +:+ id)))
       [Respond 404 (BError ("No feedback found for id " +:+ id))]).
Proof.
  intros H. unfold run, get_id, checkFeedbackId, bind. simpl.
  rewrite H. rewrite bool_decide_eq_false_2; [reflexivity|].
  intros [x Hx]. discriminate.
Qed.

(** [DELETE /:id] on an id the table does not hold: one response, 404. *)
Lemma delete_id_absent d id :
  d !! id = None ->
  run (delete_id id) d =
    (Done tt,
     mkWorld d (Some (404%Z, BMessage ("No feedback found for id " +:+ id)))
       [LogError ("No feedback found for id " +:+ id);
        Respond 404 (BMessage ("No feedback found for id " +:+ id))]).
Proof.
  intros H. unfold run, delete_id, checkFeedbackId, bind. simpl.
  rewrite H. rewrite bool_decide_eq_false_2; [reflexivity|].
  intros [x Hx]. discriminate.
Qed.

(** C1, what the handler does for an id the table holds: it deletes the
    row and sends 200, then goes on to the lines meant for a missing id:
    it logs [No feedback found] and calls the response a second time
    with 404, which throws because the 200 is already out. The row is
    gone, so [GET /:id] on the table left behind answers 404. *)
Theorem delete_id_existing_responds_twice d id :
  is_Some (d !! id) ->
  run (delete_id id) d =
    (Threw HeadersSent,
     mkWorld (delete id d) (Some (200%Z, BMessage "Deleted successfully"))
       [StoreDelete id;
        Respond 200 (BMessage "Deleted successfully");
        LogError ("No feedback found for id " +:+ id);
        Respond 404 (BMessage ("No feedback found for id " +:+ id))]) /\
  sent (snd (run (get_id id) (db (snd (run (delete_id id) d))))) =
    Some (404%Z, BError ("No feedback found for id " +:+ id)).
Proof.
  intros H.
  assert (Hrun : run (delete_id id) d =
    (Threw HeadersSent,
     mkWorld (delete id d) (Some (200%Z, BMessage "Deleted successfully"))
       [StoreDelete id;
        Respond 200 (BMessage "Deleted successfully");
        LogError ("No feedback found for id " +:+ id);
        Respond 404 (BMessage ("No feedback found for id " +:+ id))])).
  { unfold run, delete_id, checkFeedbackId, bind. simpl.
    rewrite bool_decide_eq_true_2; [reflexivity | exact H]. }
  split; [exact Hrun|].
  rewrite Hrun. simpl db. rewrite get_id_absent; [reflexivity|].
  apply lookup_delete_eq.
Qed.

(** * Evaluation on concrete inputs *)

(** ** The string and number primitives *)

Example trim_spaces : JS.trim "  a b  " = "a b".
Proof. reflexivity. Qed.

Example trim_blank : JS.trim (" " +:+ JS.nl +:+ JS.cr) = EmptyString.
Proof. reflexivity. Qed.

(** The no-break space U+00A0 is white space. *)
Example trim_no_break_space :
  JS.trim (JS.chr 160 +:+ "a" +:+ JS.chr 160) = "a" /\
  JS.trim (JS.chr 160 +:+ " " +:+ JS.chr 9) = EmptyString.
Proof. split; reflexivity. Qed.

(** The next line character U+0085 is not. *)
Example trim_next_line : JS.trim (JS.chr 133) = JS.chr 133.
Proof. reflexivity. Qed.

Example toLowerCase_latin :
  JS.toLowerCase ("Very Good" +:+ JS.chr 201 +:+ JS.chr 215) =
  "very good" +:+ JS.chr 233 +:+ JS.chr 215.
Proof. reflexivity. Qed.

Example split_ref : JS.split "/" "user:default/john" = ["user:default"; "john"].
Proof. reflexivity. Qed.

Example split_none : JS.second_segment (Some "guest") = None.
Proof. reflexivity. Qed.

Example upper_jira : JS.toUpperCase "Jira" = "JIRA".
Proof. reflexivity. Qed.

Example includes_good : JS.includes "Good" "Very Good" = true.
Proof. reflexivity. Qed.

Example includes_case : JS.includes "Good" "good" = false.
Proof. reflexivity. Qed.

Example parseInt_20 : JS.parseInt " 20px" = 20%float.
Proof. reflexivity. Qed.

Example parseInt_nan : JS.parseInt "ten" = nan.
Proof. reflexivity. Qed.

Example join_dash : JS.join "-" (JS.split " " (JS.toLowerCase "Needs Work")) = "needs-work".
Proof. reflexivity. Qed.

Example parseInt_negative_zero : (1 / JS.parseInt "-0")%float = neg_infinity.
Proof. reflexivity. Qed.

(** ** The handlers *)

Example delete_missing :
  sent (snd (run (delete_id "fb-9") Sample.table)) =
    Some (404%Z, BMessage "No feedback found for id fb-9").
Proof. reflexivity. Qed.

Example page_of_offset_5 :
  exists fields,
    sent (snd (run (get_root Sample.plain_env (mkListQuery None (Some "5") None None)) ∅)) =
      Some (200%Z, BPage fields) /\
    fields !! "currentPage" = Some (VNum 1.5%float) /\
    fields !! "pageSize" = Some (VNum 10%float) /\
    fields !! "count" = Some (VNum 0%float).
Proof. eexists. split; [reflexivity|]. vm_compute. auto. Qed.

Example page_of_limit_0 :
  exists fields,
    sent (snd (run (get_root Sample.plain_env (mkListQuery None None (Some "0") None)) ∅)) =
      Some (200%Z, BPage fields) /\
    fields !! "currentPage" = Some (VNum nan).
Proof. eexists. split; [reflexivity|]. vm_compute. auto. Qed.

Example resolution_by_annotation :
  serviceConfig_post (Some "https://jira.corp") [Sample.jira1; Sample.jira2] = Some Sample.jira2.
Proof. reflexivity. Qed.

Example resolution_falls_back :
  serviceConfig_ticket (Some "https://other.host") [Sample.jira1; Sample.jira2] = Some Sample.jira1 /\
  serviceConfig_ticket None [Sample.jira1; Sample.jira2] = Some Sample.jira1 /\
  serviceConfig_ticket (Some "https://other.host") [] = None.
Proof. repeat split; reflexivity. Qed.

Example ticket_call_goes_to_annotated_host :
  List.filter is_ticket_call (trace (snd (run (post_root Sample.jira_env Sample.issue) ∅))) =
    [CreateTicket "https://jira.corp" "token-2" (Some "proj-key") (Some "Broken")
       ("It fails" +:+ JS.nl +:+ JS.nl +:+ JS.cr +:+ JS.nl +:+
        "*Submitted from Test App*" +:+ JS.nl +:+
        "[Issue link|http://localhost:3000/catalog/default/Component/example/feedback?id=fb-1]")
       "needs-work" (Some "ISSUE") (Some "John Doe")].
Proof. vm_compute. reflexivity. Qed.

Example ticket_lookup_goes_to_annotated_host :
  trace (snd (run (get_id_ticket Sample.jira_env
                     (mkTicketQuery (Some "ticket-id") (Some "component:default/example"))) ∅)) =
    [CatalogLookup (Some "component:default/example");
     TicketLookup "https://jira.corp" "ticket-id" "token-2";
     Respond 200 (BTicket (Some (mkTicket "Backlog" "John Doe")) "fetched successfully")].
Proof. vm_compute. reflexivity. Qed.

(** A tag of positive sentiment: stored, answered, nothing filed. *)
Example positive_tag_files_nothing :
  let w := snd (run (post_root Sample.jira_env
                       (Sample.request "Nice" (Some "Works well") (Some "Very Good"))) ∅) in
  List.filter is_side_effect (trace w) = [] /\ (db w !! "fb-1") ≫= ticketUrl = None.
Proof. vm_compute. auto. Qed.

(** A submission without a description: line 118 throws before the
    ticket-creation call, although every collaborator answers. *)
Example missing_description_aborts :
  let R := Sample.request "Broken" None (Some "Needs Work") in
  let out := run (post_root Sample.jira_env R) ∅ in
  fst out = Threw (TypeError "reqData.description is undefined") /\
  sent (snd out) =
    Some (201%Z, created R (Sample.row Sample.jira_env R (Some Sample.jira_annotations))) /\
  List.filter is_side_effect (trace (snd out)) = [].
Proof. vm_compute. auto. Qed.

(** An entity annotated with a reply-to address only: line 96 throws on
    the missing [feedback/type], and no mail leaves. *)
Example missing_type_aborts :
  let out := run (post_root (Sample.env (Some Sample.replyto_only) true) Sample.issue) ∅ in
  fst out = Threw (TypeError "type is undefined") /\
  List.filter is_mail (trace (snd out)) = [].
Proof. vm_compute. auto. Qed.

(** A store that does not take the update of line 137: the handler does
    not look at the result, runs to its end, and the row stays without
    its ticket URL. *)
Example update_failure_goes_unnoticed :
  let out := run (post_root Sample.jira_update_down_env Sample.issue) ∅ in
  fst out = Done tt /\
  length (List.filter is_ticket_call (trace (snd out))) = 1%nat /\
  List.filter is_update (trace (snd out)) =
    [StoreUpdate (set_ticketUrl (Some "https://jira.corp/browse/proj-key-01") Sample.jira_row)
       None] /\
  db (snd out) !! "fb-1" = Some Sample.jira_row /\
  ticketUrl Sample.jira_row = None.
Proof. vm_compute. auto. Qed.

(** A summary of no-break spaces is an empty summary. *)
Example no_break_space_summary_rejected :
  sent (snd (run (post_root Sample.jira_env
                    (Sample.request (JS.chr 160 +:+ " " +:+ JS.chr 160) None None)) ∅)) =
    Some (500%Z, BError "Summary field empty").
Proof. reflexivity. Qed.

(** [PATCH /:id] on a store that does not take the update: 500, and the
    row is as before. *)
Example patch_store_failure :
  let data := Sample.feedback "Slower page" None None in
  let out := run (patch_id (Sample.without_updates Sample.jira_env) "fb-0" data) Sample.table in
  fst out = Done tt /\
  sent (snd out) = Some (500%Z, BMessage "Failed to edit the feedback") /\
  db (snd out) !! "fb-0" = Sample.table !! "fb-0".
Proof. vm_compute. auto. Qed.

(** A reporter the catalog does not know: line 92 throws. *)
Example unknown_reporter_aborts :
  let body := mkFeedback None (Some "Broken") (Some "component:default/example")
                (Some "It fails") None (Some "Needs Work") None (Some "ISSUE") None
                (Some "user:default/guest") None None in
  let out := run (post_root Sample.jira_env (mkPost None body)) ∅ in
  fst out = Threw (TypeError "profile is undefined") /\
  List.filter is_side_effect (trace (snd out)) = [].
Proof. vm_compute. auto. Qed.

(** ** Instances of the theorems *)

Lemma delete_id_existing_witness :
  fst (run (delete_id "fb-0") Sample.table) = Threw HeadersSent.
Proof.
  refine (f_equal fst (proj1 (delete_id_existing_responds_twice Sample.table "fb-0" _))).
  vm_compute. eexists. reflexivity.
Defined.

Lemma post_response_witness :
  exists pre suf,
    trace (snd (run (post_root Sample.jira_env Sample.issue) ∅)) =
      pre ++ Respond 201 (created Sample.issue Sample.jira_row) :: suf /\
    Forall (fun e => is_side_effect e = false) pre /\
    Forall (fun e => is_respond e = false) suf /\
    sent (snd (run (post_root Sample.jira_env Sample.issue) ∅)) =
      Some (201%Z, created Sample.issue Sample.jira_row).
Proof.
  apply (post_response_precedes_side_effects Sample.jira_env Sample.issue ∅
           (prepared Sample.jira_env Sample.issue
              (Some (Sample.component (Some Sample.jira_annotations))))).
  vm_compute. right. left. reflexivity.
Defined.

Lemma post_jira_ticket_witness :
  exists u id res,
    In (StoreUpdate (set_ticketUrl (Some u) Sample.jira_row) res)
       (trace (snd (run (post_root Sample.jira_env Sample.issue) ∅))) /\
    feedbackId Sample.jira_row = Some id /\
    (db (snd (run (post_root Sample.jira_env Sample.issue) ∅)) !! id =
       Some (set_ticketUrl (Some u) Sample.jira_row) \/
     db (snd (run (post_root Sample.jira_env Sample.issue) ∅)) !! id =
       Some Sample.jira_row).
Proof.
  assert (Hin : In (StoreInsert
                      (prepared Sample.jira_env Sample.issue
                         (Some (Sample.component (Some Sample.jira_annotations))))
                      (Some Sample.jira_row))
                  (trace (snd (run (post_root Sample.jira_env Sample.issue) ∅)))).
  { vm_compute. right. left. reflexivity. }
  assert (Hneg : positive_tag (tag (req_body Sample.issue)) = false) by reflexivity.
  assert (Hdone : fst (run (post_root Sample.jira_env Sample.issue) ∅) = Done tt).
  { vm_compute. reflexivity. }
  destruct (proj2 (post_jira_ticket Sample.jira_env Sample.issue ∅ _ Sample.jira_row
                     (Sample.component (Some Sample.jira_annotations))
                     Sample.jira_annotations "JIRA"
                     Hin eq_refl eq_refl eq_refl eq_refl) Hneg Hdone)
    as (cfgs & c & key & descr & tg & username & pre & suf & id & res &
        _ & _ & _ & Htr & _ & _ & Hid & Hdb).
  exists (host c +:+ "/browse/" +:+ key), id, res.
  split; [| split; [exact Hid |]].
  - rewrite Htr. apply in_or_app. right. right. left. reflexivity.
  - destruct Hdb as [(_ & _ & Hdb) | (_ & _ & Hdb)]; [left | right]; exact Hdb.
Defined.

Lemma post_summary_demotion_witness :
  description (prepared Sample.plain_env (Sample.request Sample.long_summary None None)
                 (Some (Sample.component None))) =
    Some (Sample.long_summary +:+ JS.nl +:+ JS.nl +:+ EmptyString).
Proof.
  refine (proj1 (proj1 (post_summary_demotion Sample.plain_env
                          (Sample.request Sample.long_summary None None) ∅
                          (prepared Sample.plain_env
                             (Sample.request Sample.long_summary None None)
                             (Some (Sample.component None)))
                          (Some (Sample.row Sample.plain_env
                                   (Sample.request Sample.long_summary None None) None))
                          Sample.long_summary
                          (Some (Sample.component None)) _ eq_refl eq_refl) _)).
  - vm_compute. right. left. reflexivity.
  - apply Nat.ltb_lt. vm_compute. reflexivity.
Defined.

Lemma post_empty_summary_witness :
  run (post_root Sample.jira_env (Sample.request "   " None None)) ∅ =
    (Done tt,
     mkWorld ∅ (Some (500%Z, BError "Summary field empty"))
       [Respond 500 (BError "Summary field empty")]).
Proof.
  apply post_empty_summary_500. right. exists "   ". split; reflexivity.
Defined.

Lemma post_store_sentinel_witness :
  sent (snd (run (post_root Sample.store_down_env Sample.issue) ∅)) =
    Some (500%Z, BError "Failed to create Issue").
Proof.
  refine (f_equal (fun out => sent (snd out))
            (post_store_sentinel_500 Sample.store_down_env Sample.issue ∅
               (prepared Sample.store_down_env Sample.issue
                  (Some (Sample.component (Some Sample.jira_annotations)))) _)).
  vm_compute. right. left. reflexivity.
Defined.

Lemma post_mail_notification_witness :
  exists m,
    List.filter is_mail (trace (snd (run (post_root Sample.mail_env Sample.issue) ∅))) =
      [SendMail m] /\
    to m = Some "john.doe@example.com" /\
    subject m = "Needs Work - Issue reported for example".
Proof.
  assert (Hin : In (StoreInsert
                      (prepared Sample.mail_env Sample.issue
                         (Some (Sample.component (Some Sample.mail_annotations))))
                      (Some (Sample.row Sample.mail_env Sample.issue
                               (Some Sample.mail_annotations))))
                  (trace (snd (run (post_root Sample.mail_env Sample.issue) ∅)))).
  { vm_compute. right. left. reflexivity. }
  assert (Hdone : fst (run (post_root Sample.mail_env Sample.issue) ∅) = Done tt).
  { vm_compute. reflexivity. }
  destruct (post_mail_notification Sample.mail_env Sample.issue ∅ _ _
              (Sample.component (Some Sample.mail_annotations)) Sample.mail_annotations
              Hin eq_refl eq_refl Hdone
              (or_introl (ex_intro _ "MAIL" (conj eq_refl eq_refl))))
    as (reporter & p & m & Hrep & Hp & Hf & Hto & _ & Hsub & _).
  exists m. split; [exact Hf|]. split; [|exact Hsub].
  rewrite Hto. vm_compute in Hrep. inversion Hrep; subst reporter.
  vm_compute in Hp. inversion Hp. reflexivity.
Defined.

Lemma post_without_annotations_witness :
  exists id,
    feedbackId (Sample.row Sample.plain_env Sample.issue None) = Some id /\
    run (post_root Sample.plain_env Sample.issue) ∅ =
      (Done tt,
       mkWorld (<[id := Sample.row Sample.plain_env Sample.issue None]> ∅)
         (Some (201%Z, created Sample.issue (Sample.row Sample.plain_env Sample.issue None)))
         [CatalogLookup (projectId (req_body Sample.issue));
          StoreInsert (prepared Sample.plain_env Sample.issue (Some (Sample.component None)))
            (Some (Sample.row Sample.plain_env Sample.issue None));
          Respond 201 (created Sample.issue (Sample.row Sample.plain_env Sample.issue None))]) /\
    ticketUrl (Sample.row Sample.plain_env Sample.issue None) = ticketUrl (req_body Sample.issue).
Proof.
  apply post_without_annotations_stops.
  - vm_compute. right. left. reflexivity.
  - right. exists (Sample.component None). split; reflexivity.
Defined.

(** ** Inputs on which the specification's wording fails *)

(** C3 as worded: the entity is annotated JIRA, the tag is not of
    positive sentiment and the submission is stored; the ticket-creation
    call is issued, the tracker rejects it, and the row is never updated:
    its [ticketUrl] stays absent. *)
Lemma post_jira_ticket_counterexample :
  let w := snd (run (post_root Sample.jira_down_env Sample.issue) ∅) in
  In (StoreInsert
        (prepared Sample.jira_down_env Sample.issue
           (Some (Sample.component (Some Sample.jira_annotations))))
        (Some Sample.jira_row)) (trace w) /\
  Sample.jira_annotations !! "feedback/type" = Some "JIRA" /\
  positive_tag (tag (req_body Sample.issue)) = false /\
  length (List.filter is_ticket_call (trace w)) = 1%nat /\
  List.filter is_update (trace w) = [] /\
  db w !! "fb-1" = Some Sample.jira_row /\
  ticketUrl Sample.jira_row = None.
Proof.
  vm_compute. repeat split; auto.
Qed.

(** C10 as worded: the entity has no annotations and the submission is
    stored; no ticket call, no mail and no update follows the insert, yet
    the [ticketUrl] of the stored record is not absent: the handler
    stores the body as it came, and this body carried one. *)
Lemma post_without_annotations_counterexample :
  let body := set_ticketUrl (Some "https://jira.corp/browse/OLD-1")
                (Sample.feedback "Broken" (Some "It fails") (Some "Needs Work")) in
  let R := mkPost (Some "http://localhost:3000") body in
  let out := run (post_root Sample.plain_env R) ∅ in
  getEntityByRef Sample.plain_env (projectId body) = Ok (Some (Sample.component None)) /\
  annotations (metadata (Sample.component None)) = None /\
  fst out = Done tt /\
  In (StoreInsert (prepared Sample.plain_env R (Some (Sample.component None)))
        (Some (Sample.row Sample.plain_env R None))) (trace (snd out)) /\
  sent (snd out) = Some (201%Z, created R (Sample.row Sample.plain_env R None)) /\
  List.filter is_side_effect (trace (snd out)) = [] /\
  db (snd out) !! "fb-1" = Some (Sample.row Sample.plain_env R None) /\
  ticketUrl (Sample.row Sample.plain_env R None) = Some "https://jira.corp/browse/OLD-1".
Proof.
  vm_compute. repeat split; auto.
Qed.

(** C8 as worded: the entity carries a [feedback/email-to] annotation
    and the submission is stored; the ticket-creation call that comes
    first is rejected, and no mail is sent. *)
Lemma post_mail_notification_counterexample :
  let w := snd (run (post_root Sample.jira_replyto_down_env Sample.issue) ∅) in
  In (StoreInsert
        (prepared Sample.jira_replyto_down_env Sample.issue
           (Some (Sample.component (Some Sample.jira_replyto_annotations))))
        (Some (Sample.row Sample.jira_replyto_down_env Sample.issue
                 (Some Sample.jira_replyto_annotations)))) (trace w) /\
  Sample.jira_replyto_annotations !! "feedback/email-to" = Some "team@example.com" /\
  List.filter is_mail (trace w) = [].
Proof.
  vm_compute. repeat split; auto.
Qed.

(** * Further properties of the handlers *)

(** ** What a handler writes *)

Lemma touches_ret id {A} (a : A) : touches id (ret a).
Proof. intros w. simpl. split; [auto | tauto]. Qed.

Lemma touches_throw id {A} (e : Error) : touches id (@throw A e).
Proof. intros w. simpl. split; [auto | tauto]. Qed.

Lemma touches_bind id {A B} (m : M A) (k : A -> M B) :
  touches id m -> (forall a, touches id (k a)) -> touches id (bind m k).
Proof.
  intros Hm Hk w. unfold bind.
  destruct (Hm w) as [H1 H2].
  destruct (m w) as [[a|e] w']; simpl in *.
  - destruct (Hk a w') as [H3 H4]. split.
    + intros k0 Hne. rewrite H3, H1; auto.
    + intros k0. rewrite H4, H2. tauto.
  - split; assumption.
Qed.

Lemma touches_emit id (e : Event) : touches id (emit e).
Proof. intros w. simpl. split; [auto | tauto]. Qed.

Lemma touches_await id {A} (r : Result A) : touches id (await r).
Proof. destruct r; [apply touches_ret | apply touches_throw]. Qed.

Lemma touches_updateFeedback (env : Env) (r : FeedbackModel) :
  touches (feedbackId r) (updateFeedback env r).
Proof.
  intros w. unfold updateFeedback. cbv zeta.
  destruct (feedbackId r) as [id|] eqn:Hid; [|simpl; split; [auto | tauto]].
  destruct (db w !! id) as [old|] eqn:Hold; simpl; [|split; [auto | tauto]].
  destruct (updateSucceeds env (db w) r); simpl; [|split; [auto | tauto]].
  split.
  - intros k Hne. apply lookup_insert_ne. congruence.
  - intros k. destruct (decide (id = k)) as [->|Hne].
    + rewrite lookup_insert_eq, Hold. split; eauto.
    + rewrite lookup_insert_ne by exact Hne. tauto.
Qed.

Ltac touches_tac :=
  cbv zeta;
  repeat first
    [ apply touches_ret
    | apply touches_throw
    | apply touches_await
    | apply touches_bind; [| intros ?]
    | apply touches_emit
    | match goal with
      | |- touches _ (match ?x with _ => _ end) => destruct x eqn:?
      end
    | progress unfold catalog, getString_app_title, getConfigArray_jira,
        jiraUsernameByEmail, jiraTicket, sendMail ].

Lemma afterResponse_touches env anns label route r :
  touches (feedbackId r) (afterResponse env anns label route r).
Proof.
  unfold afterResponse, jiraBranch. touches_tac.
  apply (touches_updateFeedback env (set_ticketUrl _ r)).
Qed.

Lemma after_block_touches env req entityRef row :
  touches (feedbackId row) (after_block env req entityRef row).
Proof.
  unfold after_block.
  destruct (entityRef ≫= _); [apply afterResponse_touches | apply touches_ret].
Qed.

(** ** The calls of the block after the response, whatever its outcome *)

Lemma updateFeedback_event env r w :
  exists res, trace (snd (updateFeedback env r w)) = trace w ++ [StoreUpdate r res].
Proof.
  unfold updateFeedback. cbv zeta.
  destruct (feedbackId r) as [id|];
    [destruct (db w !! id); [destruct (updateSucceeds env (db w) r)|]|];
    eexists; reflexivity.
Qed.

Lemma jiraBranch_shape env anns reporterEmail appTitle label route r w :
  exists evs,
    trace (snd (jiraBranch env anns reporterEmail appTitle label route r w)) = trace w ++ evs /\
    ((evs = [] \/ exists h mail tok, evs = [JiraUsernameLookup h mail tok]) /\
     (forall r', fst (jiraBranch env anns reporterEmail appTitle label route r w) <> Done r')
     \/
     (exists h mail tok pk sm dsc tg ft u err,
        createJiraTicket env h tok pk sm dsc tg ft u = Fails err /\
        evs = [JiraUsernameLookup h mail tok; CreateTicket h tok pk sm dsc tg ft u]) /\
     (forall r', fst (jiraBranch env anns reporterEmail appTitle label route r w) <> Done r')
     \/
     (exists h mail tok pk sm dsc tg ft u key res,
        createJiraTicket env h tok pk sm dsc tg ft u = Ok key /\
        evs = [JiraUsernameLookup h mail tok;
               CreateTicket h tok pk sm dsc tg ft u;
               StoreUpdate (set_ticketUrl (Some (h +:+ "/browse/" +:+ key)) r) res] /\
        fst (jiraBranch env anns reporterEmail appTitle label route r w) =
          Done (set_ticketUrl (Some (h +:+ "/browse/" +:+ key)) r))).
Proof.
  unfold jiraBranch, getConfigArray_jira, jiraUsernameByEmail, jiraTicket.
  destruct (integrations_jira (config env)) as [cfgs|]; mred.
  2:{ exists []. simpl. rewrite app_nil_r. split; [reflexivity|]. left. split; [auto|].
      intros r'. discriminate. }
  destruct (serviceConfig_post (anns !! "feedback/host") cfgs) as [c|].
  2:{ exists []. simpl. rewrite app_nil_r. split; [reflexivity|]. left. split; [auto|].
      intros r'. discriminate. }
  cbv zeta. mred.
  destruct (getJiraUsernameByEmail env (host c) reporterEmail (token c)) as [username|err].
  2:{ eexists [_]. simpl. split; [reflexivity|]. left. split; [eauto 6|].
      intros r'. discriminate. }
  destruct (description r) as [descr|].
  2:{ eexists [_]. simpl. split; [reflexivity|]. left. split; [eauto 6|].
      intros r'. discriminate. }
  destruct (tag r) as [t|].
  2:{ eexists [_]. simpl. split; [reflexivity|]. left. split; [eauto 6|].
      intros r'. discriminate. }
  mred.
  match goal with |- context [createJiraTicket ?x1 ?x2 ?x3 ?x4 ?x5 ?x6 ?x7 ?x8 ?x9] =>
    destruct (createJiraTicket x1 x2 x3 x4 x5 x6 x7 x8 x9) as [key|err] eqn:Hk end.
  2:{ eexists [_; _]. simpl. rewrite <- app_assoc. split; [reflexivity|]. right. left. split.
      - do 10 eexists. split; [exact Hk | reflexivity].
      - intros r'. discriminate. }
  match goal with |- context [bind (updateFeedback ?e ?x) _ ?y] =>
    destruct (updateFeedback_event e x y) as (res & Hev);
    destruct (updateFeedback_done e x y) as (res' & w1 & Hupd)
  end.
  unfold bind. rewrite Hupd in *. simpl in Hev |- *. rewrite Hev.
  rewrite <- !app_assoc. simpl.
  eexists [_; _; _]. split; [reflexivity|]. right. right.
  do 11 eexists. split; [exact Hk|]. split; reflexivity.
Qed.

Lemma afterResponse_shape env anns label route r w :
  exists evs,
    trace (snd (afterResponse env anns label route r w)) =
      trace w ++ CatalogLookup (createdBy r) :: evs /\
    AfterShape env r evs.
Proof.
  unfold afterResponse, catalog, getString_app_title. cbv zeta. mred.
  destruct (getEntityByRef env (createdBy r)) as [reporter|err].
  2:{ exists []. split; [reflexivity | constructor]. }
  destruct (reporter ≫= profile) as [p|].
  2:{ exists []. split; [reflexivity | constructor]. }
  destruct (app_title (config env)) as [appTitle|]; mred.
  2:{ exists []. split; [reflexivity | constructor]. }
  destruct (anns !! "feedback/type") as [type|].
  2:{ exists []. split; [reflexivity | constructor]. }
  fold (jira_condition type r). fold (mail_condition type (anns !! "feedback/email-to")).
  destruct (jira_condition type r).
  - destruct (jiraBranch_shape env anns (email p) appTitle label route r
                (push (CatalogLookup (createdBy r)) w)) as (evs & Ht & Hcases).
    unfold bind.
    destruct (jiraBranch env anns (email p) appTitle label route r
                (push (CatalogLookup (createdBy r)) w)) as [[r1|err] w1];
      simpl in Ht, Hcases.
    + destruct Hcases as [[_ Hno] | [[_ Hno] | Hfiled]];
        try (exfalso; apply (Hno r1); reflexivity).
      destruct Hfiled as (h & mail & tok & pk & sm & dsc & tg & ft & u & key & res & Hk & -> & Hr1).
      inversion Hr1; subst r1.
      destruct (mail_condition type (anns !! "feedback/email-to")); simpl; rewrite Ht.
      * eexists. rewrite <- !app_assoc. simpl. split; [reflexivity|].
        apply (AfterFiled env r h mail tok pk sm dsc tg ft u key res [_] Hk). right. eauto.
      * eexists. rewrite <- !app_assoc. simpl. split; [reflexivity|].
        apply (AfterFiled env r h mail tok pk sm dsc tg ft u key res [] Hk). left. reflexivity.
    + simpl. rewrite Ht. rewrite <- app_assoc. simpl.
      exists evs. split; [reflexivity|].
      destruct Hcases as [[[-> | (h & mail & tok & ->)] _] | [[Hrej _] | Hfiled]].
      * constructor.
      * constructor.
      * destruct Hrej as (h & mail & tok & pk & sm & dsc & tg & ft & u & err' & Hk & ->).
        apply (AfterRejected env r h mail tok pk sm dsc tg ft u err' Hk).
      * destruct Hfiled as (h & mail & tok & pk & sm & dsc & tg & ft & u & key & res & _ & _ & Hr1).
        discriminate.
  - rewrite bind_ret.
    destruct (mail_condition type (anns !! "feedback/email-to")).
    + eexists [_]. split; [simpl; rewrite <- app_assoc; reflexivity | constructor].
    + exists []. split; [reflexivity | constructor].
Qed.

(** A run of [post_root], call by call: one response for a refused
    summary; one lookup when the catalog fails; lookup, insert, 500 when
    the store fails; else lookup, insert, 201, and then nothing, or the
    reporter lookup followed by one of the shapes above. *)
Lemma post_root_trace env req d :
  let out := run (post_root env req) d in
  (exists b, trace (snd out) = [Respond 500 b] /\ db (snd out) = d) \/
  (trace (snd out) = [CatalogLookup (projectId (req_body req))] /\ db (snd out) = d) \/
  (exists r b,
     trace (snd out) = [CatalogLookup (projectId (req_body req)); StoreInsert r None;
                        Respond 500 b] /\ db (snd out) = d) \/
  (exists r row id rest,
     feedbackId row = Some id /\
     row = set_feedbackId (Some id) r /\
     trace (snd out) =
       [CatalogLookup (projectId (req_body req)); StoreInsert r (Some row);
        Respond 201 (created req row)] ++ rest /\
     (rest = [] \/
      exists evs, rest = CatalogLookup (createdBy row) :: evs /\ AfterShape env row evs) /\
     (forall k, k <> id -> db (snd out) !! k = d !! k) /\
     is_Some (db (snd out) !! id)).
Proof.
  cbv zeta.
  pose proof (post_root_cases env req d) as Hc.
  remember (run (post_root env req) d) as out eqn:Hout.
  destruct Hc as [Hs | e Hs Hcat | entityRef Hs Hcat Hn failed | entityRef id Hs Hcat Hn row].
  - left. eexists. split; reflexivity.
  - right. left. split; reflexivity.
  - right. right. left. do 2 eexists. split; reflexivity.
  - right. right. right.
    exists (prepared env req entityRef), row, id.
    destruct (after_block_touches env req entityRef row
                (mkWorld (<[id := row]> d) (Some (201%Z, created req row))
                   [CatalogLookup (projectId (req_body req));
                    StoreInsert (prepared env req entityRef) (Some row);
                    Respond 201 (created req row)])) as [Hother Hdom].
    unfold after_block in *.
    destruct (entityRef ≫= _) as [anns|].
    + match goal with |- context [afterResponse ?a ?b ?c ?d ?r ?w] =>
        destruct (afterResponse_shape a b c d r w) as (evs & Ht & Hshape)
      end.
      eexists. split; [reflexivity|]. split; [reflexivity|].
      split; [exact Ht|]. split; [right; eauto|]. split.
      * intros k Hk. rewrite Hother by (simpl; congruence).
        simpl. apply lookup_insert_ne. congruence.
      * apply Hdom. simpl. rewrite lookup_insert_eq. eauto.
    + exists []. split; [reflexivity|]. split; [reflexivity|].
      split; [reflexivity|]. split; [left; reflexivity|]. simpl. split.
      * intros k Hk. apply lookup_insert_ne. congruence.
      * rewrite lookup_insert_eq. eauto.
Qed.

Lemma AfterShape_counts env r evs :
  AfterShape env r evs ->
  Forall (fun e => is_insert e = false /\ is_respond e = false) evs /\
  length (List.filter is_ticket_call evs) <= 1 /\
  length (List.filter is_update evs) <= 1 /\
  length (List.filter is_mail evs) <= 1.
Proof.
  intros H. destruct H as [| m | h mail tok | h mail tok pk sm dsc tg ft u err Hk
                           | h mail tok pk sm dsc tg ft u key res rest Hk Hrest].
  all: try (destruct Hrest as [-> | (m & ->)]).
  all: simpl; split; [repeat (constructor; [simpl; auto|]); constructor | lia].
Qed.

(** A record handed to the store is the prepared request. *)
Lemma post_insert_inv env req d r res :
  In (StoreInsert r res) (trace (snd (run (post_root env req) d))) ->
  summary_empty (req_body req) = false /\
  exists entityRef,
    getEntityByRef env (projectId (req_body req)) = Ok entityRef /\
    r = prepared env req entityRef.
Proof.
  intros Hin.
  pose proof (post_root_cases env req d) as Hc.
  remember (run (post_root env req) d) as out eqn:Hout.
  destruct Hc as [Hs | e Hs Hcat | entityRef Hs Hcat Hn failed | entityRef id Hs Hcat Hn row];
    simpl in Hin.
  - destruct Hin as [Hin | []]. discriminate.
  - destruct Hin as [Hin | []]. discriminate.
  - destruct Hin as [Hin | [Hin | [Hin | []]]]; try discriminate.
    inversion Hin; subst. eauto.
  - edestruct (stored_path env req entityRef row) as (evs & Ht & _ & HF);
      [ | rewrite Ht in Hin ]; [reflexivity |].
    simpl in Hin.
    destruct Hin as [Hin | [Hin | [Hin | Hin]]]; try discriminate.
    + inversion Hin; subst. eauto.
    + exfalso. revert Hin. apply (Forall_not_In is_insert); [| reflexivity].
      eapply Forall_impl; [exact HF | simpl; tauto].
Qed.

Lemma keeps_row_ret id r {A} (a : A) : keeps_row id r (ret a).
Proof. intros w H. exact H. Qed.

Lemma keeps_row_throw id r {A} (e : Error) : keeps_row id r (@throw A e).
Proof. intros w H. exact H. Qed.

Lemma keeps_row_bind id r {A B} (m : M A) (k : A -> M B) :
  keeps_row id r m -> (forall a, keeps_row id r (k a)) -> keeps_row id r (bind m k).
Proof.
  intros Hm Hk w H. unfold bind. specialize (Hm w H).
  destruct (m w) as [[a|e] w']; simpl in *.
  - apply (Hk a w' Hm).
  - exact Hm.
Qed.

Lemma keeps_row_emit id r (e : Event) : keeps_row id r (emit e).
Proof. intros w H. exact H. Qed.

Lemma keeps_row_await id r {A} (x : Result A) : keeps_row id r (await x).
Proof. destruct x; [apply keeps_row_ret | apply keeps_row_throw]. Qed.

Lemma merge_ticketUrl_again (u u' : string) (row : FeedbackModel) :
  merge (set_ticketUrl (Some u') row) (set_ticketUrl (Some u) row) =
  set_ticketUrl (Some u') row.
Proof.
  unfold merge, set_ticketUrl. simpl. rewrite !or_else_same. reflexivity.
Qed.

Lemma keeps_row_updateFeedback env id r (u : string) :
  feedbackId r = Some id ->
  keeps_row id r (updateFeedback env (set_ticketUrl (Some u) r)).
Proof.
  intros Hid w H. unfold updateFeedback. cbv zeta. simpl feedbackId. rewrite Hid.
  destruct (updateSucceeds env (db w) (set_ticketUrl (Some u) r)).
  - destruct H as [H | (u0 & H)]; rewrite H; simpl; right; exists u;
      unfold row_or_ticketed; simpl; rewrite lookup_insert_eq.
    + rewrite merge_ticketUrl. reflexivity.
    + rewrite merge_ticketUrl_again. reflexivity.
  - destruct H as [H | (u0 & H)]; rewrite H; simpl; [left | right; exists u0]; exact H.
Qed.

Lemma afterResponse_keeps_row env anns label route r id :
  feedbackId r = Some id ->
  keeps_row id r (afterResponse env anns label route r).
Proof.
  intros Hid. unfold afterResponse, jiraBranch. cbv zeta.
  repeat first
    [ apply keeps_row_ret
    | apply keeps_row_throw
    | apply keeps_row_await
    | apply keeps_row_bind; [| intros ?]
    | apply keeps_row_emit
    | apply keeps_row_updateFeedback; exact Hid
    | match goal with
      | |- keeps_row _ _ (match ?x with _ => _ end) => destruct x eqn:?
      end
    | progress unfold catalog, getString_app_title, getConfigArray_jira,
        jiraUsernameByEmail, jiraTicket, sendMail ].
Qed.

(** ** Submission: what reaches the table *)

Lemma get_id_present (t : gmap string FeedbackModel) id stored :
  t !! id = Some stored ->
  run (get_id id) t =
    (Done tt,
     mkWorld t (Some (200%Z, BDataMessage (Some stored) "Feedback fetched successfully"))
       [Respond 200 (BDataMessage (Some stored) "Feedback fetched successfully")]).
Proof.
  intros Hs. unfold run, get_id, checkFeedbackId, getFeedbackByUuid, bind. simpl.
  rewrite Hs. rewrite bool_decide_eq_true_2 by eauto. simpl. rewrite Hs. reflexivity.
Qed.

(** X1: a submission answered with 201 can be read back: [GET /:id] for
    the id of the echoed row, on the table the submission leaves behind,
    answers 200 with that row, or with that row carrying a ticket URL,
    however the block after the response ended. *)
Theorem post_then_get_id env req d r row :
  In (StoreInsert r (Some row)) (trace (snd (run (post_root env req) d))) ->
  exists id stored,
    feedbackId row = Some id /\
    (stored = row \/ exists u, stored = set_ticketUrl (Some u) row) /\
    run (get_id id) (db (snd (run (post_root env req) d))) =
      (Done tt,
       mkWorld (db (snd (run (post_root env req) d)))
         (Some (200%Z, BDataMessage (Some stored) "Feedback fetched successfully"))
         [Respond 200 (BDataMessage (Some stored) "Feedback fetched successfully")]).
Proof.
  intros Hin.
  destruct (post_stored_inv env req d r row Hin) as (entityRef & id & _ & _ & Hrow & Hrun).
  assert (Hid : feedbackId row = Some id) by (rewrite Hrow; reflexivity).
  assert (Hkeep : row_or_ticketed id row (snd (run (post_root env req) d))).
  { rewrite Hrun. unfold after_block.
    destruct (entityRef ≫= _) as [anns|].
    - apply (afterResponse_keeps_row env anns _ _ row id Hid).
      left. simpl. apply lookup_insert_eq.
    - left. simpl. apply lookup_insert_eq. }
  destruct Hkeep as [H | (u & H)].
  - exists id, row. split; [exact Hid|]. split; [left; reflexivity|].
    apply get_id_present, H.
  - exists id, (set_ticketUrl (Some u) row). split; [exact Hid|].
    split; [right; eauto|]. apply get_id_present, H.
Qed.

Lemma post_then_get_id_witness :
  exists id stored,
    feedbackId Sample.jira_row = Some id /\
    (stored = Sample.jira_row \/ exists u, stored = set_ticketUrl (Some u) Sample.jira_row) /\
    run (get_id id) (db (snd (run (post_root Sample.jira_down_env Sample.issue) ∅))) =
      (Done tt,
       mkWorld (db (snd (run (post_root Sample.jira_down_env Sample.issue) ∅)))
         (Some (200%Z, BDataMessage (Some stored) "Feedback fetched successfully"))
         [Respond 200 (BDataMessage (Some stored) "Feedback fetched successfully")]).
Proof.
  apply (post_then_get_id Sample.jira_down_env Sample.issue ∅
           (prepared Sample.jira_down_env Sample.issue
              (Some (Sample.component (Some Sample.jira_annotations))))).
  vm_compute. right. left. reflexivity.
Defined.

(** X2: a submission writes one row at most: every row whose id is not
    the id the store gave to the new row is left as it was; when nothing
    was stored, that is every row. *)
Theorem post_table_frame env req d k :
  (forall r row,
     In (StoreInsert r (Some row)) (trace (snd (run (post_root env req) d))) ->
     feedbackId row <> Some k) ->
  db (snd (run (post_root env req) d)) !! k = d !! k.
Proof.
  intros Hk.
  destruct (post_root_trace env req d)
    as [(b & _ & Hd) | [(_ & Hd) | [(r & b & _ & Hd) |
        (r & row & id & rest & Hid & _ & Ht & _ & Hother & _)]]].
  - rewrite Hd. reflexivity.
  - rewrite Hd. reflexivity.
  - rewrite Hd. reflexivity.
  - apply Hother. intros ->. apply (Hk r row); [|exact Hid].
    rewrite Ht. simpl. right. left. reflexivity.
Qed.

Lemma post_table_frame_witness :
  db (snd (run (post_root Sample.jira_env Sample.issue) Sample.table)) !! "fb-0" =
  Sample.table !! "fb-0".
Proof.
  apply post_table_frame. intros r row Hin.
  vm_compute in Hin.
  destruct Hin as [H | [H | [H | [H | [H | [H | [H | []]]]]]]];
    try discriminate.
  inversion H. discriminate.
Defined.

(** X3: the record handed to the store is stamped by the router:
    [createdAt] and [updatedAt] are the time of the request and
    [updatedBy] is [createdBy], whatever the body said; the other fields
    but summary and description are the body's. *)
Theorem post_stamps_record env req d r res :
  In (StoreInsert r res) (trace (snd (run (post_root env req) d))) ->
  createdAt r = Some (now env) /\
  updatedAt r = Some (now env) /\
  updatedBy r = createdBy (req_body req) /\
  createdBy r = createdBy (req_body req) /\
  projectId r = projectId (req_body req) /\
  url r = url (req_body req) /\
  tag r = tag (req_body req) /\
  feedbackType r = feedbackType (req_body req) /\
  ticketUrl r = ticketUrl (req_body req) /\
  feedbackId r = feedbackId (req_body req).
Proof.
  intros Hin.
  destruct (post_insert_inv env req d r res Hin) as (_ & entityRef & _ & ->).
  unfold prepared, demote. cbv zeta.
  destruct (summary (stamp env (req_body req))) as [s|]; [|repeat split].
  destruct (Nat.ltb 255 (String.length s)); repeat split.
Qed.

Lemma post_stamps_record_witness :
  createdAt (prepared Sample.jira_env Sample.issue
               (Some (Sample.component (Some Sample.jira_annotations)))) =
  Some "2024-01-01T00:00:00.000Z".
Proof.
  refine (proj1 (post_stamps_record Sample.jira_env Sample.issue ∅ _ (Some Sample.jira_row) _)).
  vm_compute. right. left. reflexivity.
Defined.

(** ** Strings, character by character *)

Lemma all_chars_rev_app P (s1 s2 : string) :
  all_chars P (String.rev_app s1 s2) = all_chars P s1 && all_chars P s2.
Proof.
  revert s2. induction s1 as [|c s1 IH]; intros s2; simpl.
  - reflexivity.
  - rewrite IH. simpl. destruct (P c), (all_chars P s1); reflexivity.
Qed.

Lemma all_chars_rev P (s : string) : all_chars P (String.rev s) = all_chars P s.
Proof. unfold String.rev. rewrite all_chars_rev_app. simpl. apply andb_true_r. Qed.

Lemma all_chars_append P (a b : string) :
  all_chars P (a +:+ b) = all_chars P a && all_chars P b.
Proof.
  induction a as [|c a IH]; simpl; [reflexivity|].
  rewrite IH. apply andb_assoc.
Qed.

Lemma all_chars_trimStart (s : string) :
  all_chars JS.is_ws (JS.trimStart s) = all_chars JS.is_ws s.
Proof.
  induction s as [|c s IH]; simpl; [reflexivity|].
  destruct (JS.is_ws c) eqn:Hc; simpl; [exact IH | rewrite Hc; reflexivity].
Qed.

Lemma trimStart_empty (s : string) :
  JS.trimStart s = EmptyString -> all_chars JS.is_ws s = true.
Proof.
  induction s as [|c s IH]; simpl; [reflexivity|].
  destruct (JS.is_ws c); [exact IH | discriminate].
Qed.

Lemma rev_app_empty (s1 s2 : string) :
  String.rev_app s1 s2 = EmptyString -> s1 = EmptyString /\ s2 = EmptyString.
Proof.
  revert s2. induction s1 as [|c s1 IH]; intros s2 H; simpl in H.
  - auto.
  - apply IH in H as [_ H]. discriminate.
Qed.

(** A string that trims to nothing is white space throughout. *)
Lemma trim_empty (s : string) :
  JS.trim s = EmptyString -> all_chars JS.is_ws s = true.
Proof.
  unfold JS.trim, String.rev at 1. intros H.
  apply rev_app_empty in H as [H _].
  apply trimStart_empty in H.
  rewrite all_chars_rev, all_chars_trimStart in H. exact H.
Qed.

Lemma length_append (a b : string) :
  String.length (a +:+ b) = String.length a + String.length b.
Proof. induction a as [|c a IH]; simpl; [reflexivity | rewrite IH; reflexivity]. Qed.

(** ** Submission: the summary that is stored *)

(** X4: no record with a blank summary reaches the store: the summary of
    a record handed to it never trims to the empty string, be it the
    submitted one or the one written in its place. *)
Theorem post_summary_never_blank env req d r res :
  In (StoreInsert r res) (trace (snd (run (post_root env req) d))) ->
  exists s, summary r = Some s /\ JS.trim s <> EmptyString.
Proof.
  intros Hin.
  destruct (post_insert_inv env req d r res Hin) as (Hs & entityRef & _ & ->).
  unfold summary_empty in Hs.
  destruct (summary (req_body req)) as [s0|] eqn:Hsum; [|discriminate].
  apply orb_false_iff in Hs as [_ Hlen]. apply Nat.ltb_ge in Hlen.
  unfold prepared, demote. cbv zeta. simpl summary. rewrite Hsum.
  destruct (Nat.ltb 255 (String.length s0)).
  - eexists. split; [reflexivity|]. intros Hblank.
    apply trim_empty in Hblank. unfold short_summary, feedbackTypeLabel in Hblank.
    destruct (feedbackType (stamp env (req_body req))) as [t|];
      [destruct (String.eqb t "FEEDBACK")|]; discriminate.
  - exists s0. simpl. split; [exact Hsum|]. intros Hblank. rewrite Hblank in Hlen.
    simpl in Hlen. lia.
Qed.

Lemma post_summary_never_blank_witness :
  exists s,
    summary (prepared Sample.plain_env (Sample.request Sample.long_summary None None)
               (Some (Sample.component None))) = Some s /\
    JS.trim s <> EmptyString.
Proof.
  apply (post_summary_never_blank Sample.plain_env
           (Sample.request Sample.long_summary None None) ∅ _
           (Some (Sample.row Sample.plain_env
                    (Sample.request Sample.long_summary None None) None))).
  vm_compute. right. left. reflexivity.
Defined.

(** X5: the summary that is stored is at most 255 characters long as
    soon as the user part of [createdBy] and the entity's title (or
    name) have at most 229 characters together. The summary written in
    place of a long one has exactly 18 characters more than its label
    ([Feedback], 8 characters, or [Issue], 5), that user part and that
    title together: it exceeds the limit again as soon as the pair has
    233 characters or more (with the label [Issue], a pair of 230 to 232
    characters still fits). *)
Theorem post_summary_length env req d r res s entityRef :
  In (StoreInsert r res) (trace (snd (run (post_root env req) d))) ->
  getEntityByRef env (projectId (req_body req)) = Ok entityRef ->
  summary r = Some s ->
  let pair :=
    String.length (JS.tpl (JS.second_segment (createdBy (req_body req)))) +
    String.length (JS.tpl (title_or_name entityRef)) in
  let label := feedbackTypeLabel (req_body req) in
  (pair <= 229 -> String.length s <= 255) /\
  (forall s0, summary (req_body req) = Some s0 -> 255 < String.length s0 ->
     String.length s = String.length label + 18 + pair /\
     (String.length label = 8 \/ String.length label = 5) /\
     (233 <= pair -> 255 < String.length s) /\
     (String.length s <= 255 <-> String.length label + pair <= 237)).
Proof.
  intros Hin Hcat Hsum.
  destruct (post_insert_inv env req d r res Hin) as (_ & entityRef' & Hcat' & ->).
  rewrite Hcat in Hcat'. inversion Hcat'; subst entityRef'. clear Hcat'.
  cbv zeta.
  assert (Hlabel : String.length (feedbackTypeLabel (req_body req)) = 8 \/
                   String.length (feedbackTypeLabel (req_body req)) = 5).
  { unfold feedbackTypeLabel.
    destruct (feedbackType (req_body req)) as [t|];
      [destruct (String.eqb t "FEEDBACK")|]; simpl; auto. }
  revert Hsum. unfold prepared, demote. cbv zeta. simpl summary.
  change (feedbackTypeLabel (stamp env (req_body req)))
    with (feedbackTypeLabel (req_body req)).
  destruct (summary (req_body req)) as [s0|] eqn:Hs0;
    [| simpl; rewrite Hs0; intros H; discriminate].
  destruct (Nat.ltb 255 (String.length s0)) eqn:Hlen; simpl.
  - intros H. inversion H; subst s. clear H.
    unfold short_summary. rewrite !length_append. simpl createdBy.
    simpl String.length. split; [lia|]. intros s0' _ _.
    split; [lia|]. split; [exact Hlabel|]. split; lia.
  - rewrite Hs0. intros H. inversion H; subst s. apply Nat.ltb_ge in Hlen.
    split; [lia|]. intros s0' H' Hlong. inversion H'; subst. lia.
Qed.

Lemma post_summary_length_witness :
  exists s,
    summary (prepared Sample.plain_env (Sample.request Sample.long_summary None None)
               (Some (Sample.component None))) = Some s /\
    String.length s <= 255.
Proof.
  exists "Issue reported by john for Example App".
  split; [reflexivity|].
  refine (proj1 (post_summary_length Sample.plain_env
                   (Sample.request Sample.long_summary None None) ∅ _
                   (Some (Sample.row Sample.plain_env
                            (Sample.request Sample.long_summary None None) None))
                   "Issue reported by john for Example App"
                   (Some (Sample.component None)) _ eq_refl _) _).
  - vm_compute. right. left. reflexivity.
  - vm_compute. reflexivity.
  - vm_compute. lia.
Defined.

(** ** Submission: how often and in which order *)

(** X6: whatever the collaborators answer, one submission makes at most
    one response, one insert, one ticket-creation call, one update and
    one mail. *)
Theorem post_effects_at_most_once env req d :
  let t := trace (snd (run (post_root env req) d)) in
  length (List.filter is_respond t) <= 1 /\
  length (List.filter is_insert t) <= 1 /\
  length (List.filter is_ticket_call t) <= 1 /\
  length (List.filter is_update t) <= 1 /\
  length (List.filter is_mail t) <= 1.
Proof.
  cbv zeta.
  destruct (post_root_trace env req d)
    as [(b & Ht & _) | [(Ht & _) | [(r & b & Ht & _) |
        (r & row & id & rest & _ & _ & Ht & Hrest & _)]]];
    rewrite Ht; simpl; try lia.
  destruct Hrest as [-> | (evs & -> & Hshape)]; simpl; [lia|].
  destruct (AfterShape_counts env row evs Hshape) as (HF & H1 & H2 & H3).
  assert (Hr : List.filter is_respond evs = []).
  { clear - HF. induction HF as [|e evs [_ He] _ IH]; simpl; [reflexivity|].
    rewrite He. exact IH. }
  assert (Hi : List.filter is_insert evs = []).
  { clear - HF. induction HF as [|e evs [He _] _ IH]; simpl; [reflexivity|].
    rewrite He. exact IH. }
  rewrite Hr, Hi. simpl. lia.
Qed.

(** X7: the table is updated only to record a ticket that was created:
    in any run, a store update comes directly after a ticket-creation
    call that the tracker accepted, and the record it writes carries
    [<host>/browse/<key>] for the host of that call and the key the
    tracker returned. *)
Theorem post_update_follows_ticket env req d n r' res :
  trace (snd (run (post_root env req) d)) !! n = Some (StoreUpdate r' res) ->
  exists m h tok pk sm dsc tg ft u key,
    n = S m /\
    trace (snd (run (post_root env req) d)) !! m =
      Some (CreateTicket h tok pk sm dsc tg ft u) /\
    createJiraTicket env h tok pk sm dsc tg ft u = Ok key /\
    ticketUrl r' = Some (h +:+ "/browse/" +:+ key).
Proof.
  destruct (post_root_trace env req d)
    as [(b & Ht & _) | [(Ht & _) | [(r & b & Ht & _) |
        (r & row & id & rest & _ & _ & Ht & Hrest & _)]]];
    rewrite Ht; intros Hn.
  - repeat (destruct n as [|n]; simpl in Hn; try discriminate).
  - repeat (destruct n as [|n]; simpl in Hn; try discriminate).
  - repeat (destruct n as [|n]; simpl in Hn; try discriminate).
  - destruct Hrest as [-> | (evs & -> & Hshape)].
    + repeat (destruct n as [|n]; simpl in Hn; try discriminate).
    + destruct Hshape as [| m | h mail tok | h mail tok pk sm dsc tg ft u err Hk
                          | h mail tok pk sm dsc tg ft u key res0 rest Hk Hrest].
      * repeat (destruct n as [|n]; simpl in Hn; try discriminate).
      * repeat (destruct n as [|n]; simpl in Hn; try discriminate).
      * repeat (destruct n as [|n]; simpl in Hn; try discriminate).
      * repeat (destruct n as [|n]; simpl in Hn; try discriminate).
      * destruct Hrest as [-> | (m & ->)];
          repeat (destruct n as [|n]; simpl in Hn; try discriminate);
          inversion Hn; subst r' res;
          exists 5, h, tok, pk, sm, dsc, tg, ft, u, key;
          repeat split; assumption.
Qed.

Lemma post_update_follows_ticket_witness :
  exists m h tok pk sm dsc tg ft u key,
    6 = S m /\
    trace (snd (run (post_root Sample.jira_env Sample.issue) ∅)) !! m =
      Some (CreateTicket h tok pk sm dsc tg ft u) /\
    createJiraTicket Sample.jira_env h tok pk sm dsc tg ft u = Ok key /\
    ticketUrl (set_ticketUrl (Some "https://jira.corp/browse/proj-key-01") Sample.jira_row) =
      Some (h +:+ "/browse/" +:+ key).
Proof.
  apply (post_update_follows_ticket Sample.jira_env Sample.issue ∅ 6
           (set_ticketUrl (Some "https://jira.corp/browse/proj-key-01") Sample.jira_row)
           (Some (set_ticketUrl (Some "https://jira.corp/browse/proj-key-01")
                    Sample.jira_row))).
  vm_compute. reflexivity.
Defined.

(** ** Submission: what a ticket call carries, and when it is made *)

Lemma includes_space (s : string) :
  JS.includes " " s = negb (all_chars not_space s).
Proof.
  induction s as [|c s IH]; [reflexivity|].
  change (JS.includes " " (String c s))
    with (String.prefix " " (String c s) || JS.includes " " s).
  rewrite IH.
  change (String.prefix " " (String c s))
    with (if ascii_dec " " c then String.prefix EmptyString s else false).
  change (all_chars not_space (String c s)) with (not_space c && all_chars not_space s).
  destruct (ascii_dec " " c) as [<-|Hne].
  - rewrite prefix_empty. reflexivity.
  - assert (Hc : not_space c = true).
    { unfold not_space. destruct (Ascii.eqb_spec c " ") as [->|_];
        [contradiction | reflexivity]. }
    rewrite Hc. reflexivity.
Qed.

Lemma split_go_space_free (cur s : string) :
  all_chars not_space cur = true ->
  Forall (fun x => all_chars not_space x = true) (JS.split_go " " cur s).
Proof.
  revert cur. induction s as [|c s IH]; intros cur Hcur; simpl.
  - constructor; [|constructor]. rewrite all_chars_rev. exact Hcur.
  - destruct (Ascii.eqb_spec c " ") as [->|Hne].
    + constructor; [rewrite all_chars_rev; exact Hcur | apply IH; reflexivity].
    + apply IH. simpl. rewrite Hcur. unfold not_space.
      destruct (Ascii.eqb_spec c " "); [contradiction | reflexivity].
Qed.

Lemma join_dash_space_free (xs : list string) :
  Forall (fun x => all_chars not_space x = true) xs ->
  all_chars not_space (JS.join "-" xs) = true.
Proof.
  induction 1 as [|x xs Hx Hxs IH]; [reflexivity|].
  destruct xs as [|y ys]; [exact Hx|].
  change (JS.join "-" (x :: y :: ys)) with (x +:+ "-" +:+ JS.join "-" (y :: ys)).
  rewrite !all_chars_append, Hx, IH. reflexivity.
Qed.

Lemma ticket_label_space_free (t : string) :
  JS.includes " " (JS.join "-" (JS.split " " (JS.toLowerCase t))) = false.
Proof.
  rewrite includes_space, join_dash_space_free; [reflexivity|].
  apply split_go_space_free. reflexivity.
Qed.

(** X8: the label a ticket is created with never holds a space: every
    ticket-creation call of a submission passes the tag with its spaces
    replaced by dashes. *)
Theorem post_ticket_label_without_space env req d :
  Forall label_without_space (trace (snd (run (post_root env req) d))).
Proof.
  pose proof (post_root_cases env req d) as Hc.
  remember (run (post_root env req) d) as out eqn:Hout.
  destruct Hc as [Hs | e Hs Hcat | entityRef Hs Hcat Hn failed | entityRef id Hs Hcat Hn row];
    simpl; try (repeat constructor).
  assert (Hsteps : steps label_without_space (after_block env req entityRef row)).
  { unfold after_block. destruct (entityRef ≫= _); [|apply steps_ret].
    unfold afterResponse, jiraBranch. steps_tac; simpl; auto.
    apply ticket_label_space_free. }
  match goal with |- context [after_block ?a ?b ?c ?r ?w] =>
    destruct (Hsteps w) as (evs & _ & Ht & HF & _)
  end.
  rewrite Ht. simpl. repeat (constructor; [exact I|]). exact HF.
Qed.

Lemma afterResponse_ticket_for env anns label route r :
  steps (ticket_for anns r) (afterResponse env anns label route r).
Proof.
  unfold afterResponse, jiraBranch. steps_tac; simpl; auto.
  match goal with
  | H : _ && negb _ = true |- _ => apply andb_true_iff in H as [Hup Hneg]
  end.
  apply String.eqb_eq in Hup. apply negb_true_iff in Hneg.
  eexists _, _. repeat split; eauto.
Qed.

Lemma afterResponse_mail_for env anns label route r :
  steps (mail_for anns) (afterResponse env anns label route r).
Proof.
  unfold afterResponse, jiraBranch. steps_tac; simpl; auto.
  match goal with
  | H : _ || _ = true |- _ => apply orb_true_iff in H as [Hup | Htr]
  end.
  - apply String.eqb_eq in Hup. split; [eauto | reflexivity].
  - split; [eauto | reflexivity].
Qed.

(** What [post_root] calls after the response comes from the block of
    an annotated entity. *)
Lemma post_after_events (P : gmap string string -> FeedbackModel -> Event -> Prop)
    env req d ev :
  (forall anns r label route, steps (P anns r) (afterResponse env anns label route r)) ->
  In ev (trace (snd (run (post_root env req) d))) ->
  is_respond ev = false -> is_insert ev = false ->
  ev = CatalogLookup (projectId (req_body req)) \/
  exists e anns id,
    getEntityByRef env (projectId (req_body req)) = Ok (Some e) /\
    annotations (metadata e) = Some anns /\
    newFeedbackId env d (prepared env req (Some e)) = Some id /\
    P anns (set_feedbackId (Some id) (prepared env req (Some e))) ev.
Proof.
  intros HP Hin Hr Hi.
  pose proof (post_root_cases env req d) as Hc.
  remember (run (post_root env req) d) as out eqn:Hout.
  destruct Hc as [Hs | e Hs Hcat | entityRef Hs Hcat Hn failed | entityRef id Hs Hcat Hn row].
  - destruct Hin as [<- | []]. discriminate.
  - destruct Hin as [<- | []]. left. reflexivity.
  - destruct Hin as [<- | [<- | [<- | []]]]; try discriminate. left. reflexivity.
  - unfold after_block in Hin.
    destruct entityRef as [e|]; simpl in Hin.
    2:{ destruct Hin as [<- | [<- | [<- | []]]]; try discriminate. left. reflexivity. }
    destruct (annotations (metadata e)) as [anns|] eqn:Ha; simpl in Hin.
    2:{ destruct Hin as [<- | [<- | [<- | []]]]; try discriminate. left. reflexivity. }
    match type of Hin with context [afterResponse ?a ?b ?c ?d ?r ?w] =>
      destruct (HP b r c d w) as (evs & _ & Ht & HF & _)
    end.
    rewrite Ht in Hin. simpl in Hin.
    destruct Hin as [<- | [<- | [<- | Hin]]]; try discriminate; [left; reflexivity|].
    right. exists e, anns, id. split; [exact Hcat|]. split; [exact Ha|].
    split; [exact Hn|].
    rewrite Forall_forall in HF. apply HF. apply list_elem_of_In. exact Hin.
Qed.

(** X9: a ticket is only ever created for an entity annotated
    [feedback/type] = JIRA (in any letter case) and a submission whose
    tag is not of positive sentiment; the call carries the entity's
    [jira/project-key] and the tag, lower-cased and dashed, as label. *)
Theorem post_ticket_only_for_jira env req d h tok pk sm dsc tg ft u :
  In (CreateTicket h tok pk sm dsc tg ft u) (trace (snd (run (post_root env req) d))) ->
  exists e anns type t,
    getEntityByRef env (projectId (req_body req)) = Ok (Some e) /\
    annotations (metadata e) = Some anns /\
    anns !! "feedback/type" = Some type /\
    JS.toUpperCase type = "JIRA" /\
    tag (req_body req) = Some t /\
    positive_tag (Some t) = false /\
    pk = anns !! "jira/project-key" /\
    tg = JS.join "-" (JS.split " " (JS.toLowerCase t)) /\
    ft = feedbackType (req_body req).
Proof.
  intros Hin.
  destruct (post_after_events ticket_for env req d _
              (fun anns r label route => afterResponse_ticket_for env anns label route r) Hin
              eq_refl eq_refl) as [Heq | (e & anns & id & Hcat & Ha & _ & HP)];
    [discriminate|].
  destruct HP as (type & t & Hty & Hup & Htag & Hpos & Hpk & _ & Htg & Hft).
  exists e, anns, type, t.
  simpl in Htag, Hft. rewrite prepared_tag in Htag.
  repeat (split; [assumption|]).
  rewrite Hft. unfold prepared, demote. cbv zeta.
  destruct (summary (stamp env (req_body req))) as [s|]; [|reflexivity].
  destruct (Nat.ltb 255 (String.length s)); reflexivity.
Qed.

Lemma post_ticket_only_for_jira_witness :
  exists e anns type t,
    getEntityByRef Sample.jira_env (projectId (req_body Sample.issue)) = Ok (Some e) /\
    annotations (metadata e) = Some anns /\
    anns !! "feedback/type" = Some type /\
    JS.toUpperCase type = "JIRA" /\
    tag (req_body Sample.issue) = Some t /\
    positive_tag (Some t) = false /\
    Some "proj-key" = anns !! "jira/project-key" /\
    "needs-work" = JS.join "-" (JS.split " " (JS.toLowerCase t)) /\
    Some "ISSUE" = feedbackType (req_body Sample.issue).
Proof.
  eapply (post_ticket_only_for_jira Sample.jira_env Sample.issue ∅
            "https://jira.corp" "token-2" (Some "proj-key") (Some "Broken")
            ("It fails" +:+ JS.nl +:+ JS.nl +:+ JS.cr +:+ JS.nl +:+
             "*Submitted from Test App*" +:+ JS.nl +:+
             "[Issue link|http://localhost:3000/catalog/default/Component/example/feedback?id=fb-1]")
            "needs-work" (Some "ISSUE") (Some "John Doe")).
  vm_compute. do 5 right. left. reflexivity.
Defined.

(** X10: a mail is only ever sent for an entity annotated
    [feedback/type] = MAIL (in any letter case) or carrying a non-empty
    [feedback/email-to]; its reply-to is that annotation, and it is the
    last call of the handler. *)
Theorem post_mail_only_if env req d m :
  In (SendMail m) (trace (snd (run (post_root env req) d))) ->
  (exists e anns type,
     getEntityByRef env (projectId (req_body req)) = Ok (Some e) /\
     annotations (metadata e) = Some anns /\
     anns !! "feedback/type" = Some type /\
     (JS.toUpperCase type = "MAIL" \/ JS.truthy (anns !! "feedback/email-to") = true) /\
     replyTo m = anns !! "feedback/email-to") /\
  last (trace (snd (run (post_root env req) d))) = Some (SendMail m).
Proof.
  intros Hin. split.
  - destruct (post_after_events (fun anns _ => mail_for anns) env req d _
                (fun anns r label route => afterResponse_mail_for env anns label route r)
                Hin eq_refl eq_refl) as [Heq | (e & anns & id & Hcat & Ha & _ & HP)];
      [discriminate|].
    destruct HP as ((type & Hty & Hcond) & Hreply).
    exists e, anns, type. auto.
  - revert Hin.
    destruct (post_root_trace env req d)
      as [(b & Ht & _) | [(Ht & _) | [(r & b & Ht & _) |
          (r & row & id & rest & _ & _ & Ht & Hrest & _)]]];
      rewrite Ht; simpl; intros Hin.
    + destruct Hin as [H | []]. discriminate.
    + destruct Hin as [H | []]. discriminate.
    + destruct Hin as [H | [H | [H | []]]]; discriminate.
    + destruct Hin as [H | [H | [H | Hin]]]; try discriminate.
      destruct Hrest as [-> | (evs & -> & Hshape)]; [destruct Hin|].
      destruct Hin as [H | Hin]; [discriminate|].
      destruct Hshape as [| m0 | h mail tok | h mail tok pk sm dsc tg ft u err Hk
                          | h mail tok pk sm dsc tg ft u key res0 rest Hk Hrest];
        simpl in Hin.
      * destruct Hin.
      * destruct Hin as [H | []]. inversion H; subst. reflexivity.
      * destruct Hin as [H | []]. discriminate.
      * destruct Hin as [H | [H | []]]; discriminate.
      * destruct Hrest as [-> | (m0 & ->)]; simpl in Hin.
        -- destruct Hin as [H | [H | [H | []]]]; discriminate.
        -- destruct Hin as [H | [H | [H | [H | []]]]]; try discriminate.
           inversion H; subst. reflexivity.
Qed.

Lemma post_mail_only_if_witness :
  exists m, last (trace (snd (run (post_root Sample.mail_env Sample.issue) ∅))) =
            Some (SendMail m).
Proof.
  eexists.
  refine (proj2 (post_mail_only_if Sample.mail_env Sample.issue ∅ _ _)).
  vm_compute. do 4 right. left. reflexivity.
Defined.

(** ** Reading, editing and deleting a record *)

(** X11: [GET /:id] answers once and writes nothing: 200 with the stored
    record when the table holds the id, else 404 with an error message
    that ends in the id. *)
Theorem get_id_contract d id :
  exists code body,
    run (get_id id) d = (Done tt, mkWorld d (Some (code, body)) [Respond code body]) /\
    (forall r, d !! id = Some r ->
       code = 200%Z /\ body = BDataMessage (Some r) "Feedback fetched successfully") /\
    (d !! id = None ->
       code = 404%Z /\ body = BError ("No feedback found for id " +:+ id)).
Proof.
  destruct (d !! id) as [r|] eqn:Hd.
  - exists 200%Z, (BDataMessage (Some r) "Feedback fetched successfully").
    split; [apply get_id_present; exact Hd|]. split.
    + intros r' H. inversion H; subst. auto.
    + discriminate.
  - exists 404%Z, (BError ("No feedback found for id " +:+ id)).
    split; [apply get_id_absent; exact Hd|]. split; [discriminate | auto].
Qed.


(** X13: after [DELETE /:id] the table holds no row of that id and every
    other row as before, whether the id existed or not; a second
    [DELETE /:id] then finds nothing and answers once, 404. *)
Theorem delete_id_table d id :
  let d' := db (snd (run (delete_id id) d)) in
  d' !! id = None /\
  (forall k, k <> id -> d' !! k = d !! k) /\
  run (delete_id id) d' =
    (Done tt,
     mkWorld d' (Some (404%Z, BMessage ("No feedback found for id " +:+ id)))
       [LogError ("No feedback found for id " +:+ id);
        Respond 404 (BMessage ("No feedback found for id " +:+ id))]).
Proof.
  cbv zeta.
  assert (Hd' : db (snd (run (delete_id id) d)) = delete id d).
  { unfold run, delete_id, checkFeedbackId, bind. simpl.
    destruct (d !! id) as [r|] eqn:Hd.
    - rewrite bool_decide_eq_true_2 by eauto. reflexivity.
    - rewrite bool_decide_eq_false_2 by (intros [x Hx]; discriminate). simpl.
      symmetry. apply fin_maps.delete_id. exact Hd. }
  rewrite Hd'. split; [apply lookup_delete_eq|]. split.
  - intros k Hk. apply lookup_delete_ne. congruence.
  - apply delete_id_absent. apply lookup_delete_eq.
Qed.

(** ** The ticket endpoint *)

(** X14: without a ticket id or without a project id (missing or empty)
    [GET /:id/ticket] answers 404 at once: it asks neither the catalog
    nor the tracker, and the message names the ticket id, [null] when
    there is none. *)
Theorem get_id_ticket_without_parameters env q d :
  JS.truthy (t_ticketId q) = false \/ JS.truthy (t_projectId q) = false ->
  let shown := if JS.truthy (t_ticketId q) then JS.tpl (t_ticketId q) else "null" in
  run (get_id_ticket env q) d =
    (Done tt,
     mkWorld d (Some (404%Z, BError ("Unable to fetch jira ticket " +:+ shown)))
       [Respond 404 (BError ("Unable to fetch jira ticket " +:+ shown))]).
Proof.
  intros H. cbv zeta. unfold run, get_id_ticket. cbv zeta.
  destruct (t_ticketId q) as [tid|]; [destruct (JS.truthy (Some tid)) eqn:Ht|];
    destruct H as [H | H]; try discriminate; try rewrite H; try reflexivity.
Qed.

Lemma get_id_ticket_without_parameters_witness :
  run (get_id_ticket Sample.jira_env (mkTicketQuery (Some "ticket-id") (Some EmptyString))) ∅ =
    (Done tt,
     mkWorld ∅ (Some (404%Z, BError "Unable to fetch jira ticket ticket-id"))
       [Respond 404 (BError "Unable to fetch jira ticket ticket-id")]).
Proof.
  apply (get_id_ticket_without_parameters Sample.jira_env
           (mkTicketQuery (Some "ticket-id") (Some EmptyString)) ∅).
  right. reflexivity.
Defined.

(** X15: [GET /:id/ticket] answers 200 only with what the tracker said
    about that very ticket: the entity of the project is of type jira
    (in any letter case), the run is the catalog lookup, one tracker
    lookup of the ticket id at the resolved entry and the response, and
    the table is untouched. *)
Theorem get_id_ticket_200 env q d body :
  sent (snd (run (get_id_ticket env q) d)) = Some (200%Z, body) ->
  exists tid pid entityRef t cfgs c details,
    t_ticketId q = Some tid /\
    t_projectId q = Some pid /\
    getEntityByRef env (Some pid) = Ok entityRef /\
    annotation_of entityRef "feedback/type" = Some t /\
    JS.toLowerCase t = "jira" /\
    integrations_jira (config env) = Some cfgs /\
    serviceConfig_ticket (annotation_of entityRef "feedback/host") cfgs = Some c /\
    getTicketDetails env (host c) tid (token c) = Ok details /\
    body = BTicket details "fetched successfully" /\
    run (get_id_ticket env q) d =
      (Done tt,
       mkWorld d (Some (200%Z, body))
         [CatalogLookup (Some pid); TicketLookup (host c) tid (token c); Respond 200 body]).
Proof.
  unfold run, get_id_ticket. cbv zeta.
  destruct (t_ticketId q) as [tid|]; [destruct (JS.truthy (Some tid))|];
    (destruct (t_projectId q) as [pid|]; [destruct (JS.truthy (Some pid))|]);
    try (simpl; intros H; discriminate).
  unfold catalog. mred.
  destruct (getEntityByRef env (Some pid)) as [entityRef|err] eqn:Hcat;
    [| simpl; intros H; discriminate].
  destruct (annotation_of entityRef "feedback/type") as [t|] eqn:Hty;
    [| simpl; intros H; discriminate].
  destruct (String.eqb_spec (JS.toLowerCase t) "jira") as [Hlow|Hlow];
    [| simpl; intros H; discriminate].
  unfold getConfigArray_jira.
  destruct (integrations_jira (config env)) as [cfgs|] eqn:Hcfg; mred;
    [| simpl; intros H; discriminate].
  destruct (serviceConfig_ticket (annotation_of entityRef "feedback/host") cfgs)
    as [c|] eqn:Hsc; [| simpl; intros H; discriminate].
  unfold ticketDetails. mred.
  destruct (getTicketDetails env (host c) tid (token c)) as [details|err] eqn:Hd;
    [| simpl; intros H; discriminate].
  simpl. intros H. inversion H; subst body.
  exists tid, pid, entityRef, t, cfgs, c, details. repeat split; auto.
Qed.

Lemma get_id_ticket_200_witness :
  exists tid pid entityRef t cfgs c details,
    t_ticketId (mkTicketQuery (Some "ticket-id") (Some "component:default/example")) = Some tid /\
    t_projectId (mkTicketQuery (Some "ticket-id") (Some "component:default/example")) = Some pid /\
    getEntityByRef Sample.jira_env (Some pid) = Ok entityRef /\
    annotation_of entityRef "feedback/type" = Some t /\
    JS.toLowerCase t = "jira" /\
    integrations_jira (config Sample.jira_env) = Some cfgs /\
    serviceConfig_ticket (annotation_of entityRef "feedback/host") cfgs = Some c /\
    getTicketDetails Sample.jira_env (host c) tid (token c) = Ok details /\
    BTicket (Some (mkTicket "Backlog" "John Doe")) "fetched successfully" =
      BTicket details "fetched successfully" /\
    run (get_id_ticket Sample.jira_env
           (mkTicketQuery (Some "ticket-id") (Some "component:default/example"))) ∅ =
      (Done tt,
       mkWorld ∅
         (Some (200%Z, BTicket (Some (mkTicket "Backlog" "John Doe")) "fetched successfully"))
         [CatalogLookup (Some pid); TicketLookup (host c) tid (token c);
          Respond 200 (BTicket (Some (mkTicket "Backlog" "John Doe")) "fetched successfully")]).
Proof.
  apply (get_id_ticket_200 Sample.jira_env
           (mkTicketQuery (Some "ticket-id") (Some "component:default/example")) ∅).
  vm_compute. reflexivity.
Defined.

(** X16: [GET /:id/ticket] never writes the table and never answers
    twice, whatever the catalog and the tracker do. *)
Theorem get_id_ticket_read_only env q d :
  db (snd (run (get_id_ticket env q) d)) = d /\
  length (List.filter is_respond (trace (snd (run (get_id_ticket env q) d)))) <= 1.
Proof.
  unfold run, get_id_ticket. cbv zeta.
  assert (Hnf : forall msg,
            db (snd (respond 404 (BError msg) (start d))) = d /\
            length (List.filter is_respond
                      (trace (snd (respond 404 (BError msg) (start d))))) <= 1).
  { intros msg. simpl. auto. }
  destruct (t_ticketId q) as [tid|]; [destruct (JS.truthy (Some tid))|];
    (destruct (t_projectId q) as [pid|]; [destruct (JS.truthy (Some pid))|]);
    try apply Hnf.
  unfold catalog, getConfigArray_jira, ticketDetails. mred.
  destruct (getEntityByRef env (Some pid)) as [entityRef|err]; [|simpl; auto].
  destruct (annotation_of entityRef "feedback/type") as [t|]; [|simpl; auto].
  destruct (String.eqb (JS.toLowerCase t) "jira"); [|simpl; auto].
  destruct (integrations_jira (config env)) as [cfgs|]; mred; [|simpl; auto].
  destruct (serviceConfig_ticket (annotation_of entityRef "feedback/host") cfgs) as [c|];
    [|simpl; auto].
  mred. destruct (getTicketDetails env (host c) tid (token c)); simpl; auto.
Qed.

(** ** Listing and host resolution at the edges *)

(** X17: [GET /] takes a parameter that is present but empty for an
    absent one: the listing is asked for, and the page computed, as if
    the parameter had not been given. *)
Theorem get_root_empty_parameters env q d :
  run (get_root env q) d =
  run (get_root env
         (mkListQuery (drop_empty (q_projectId q)) (drop_empty (q_offset q))
            (drop_empty (q_limit q)) (drop_empty (q_query q)))) d.
Proof.
  unfold run, get_root. cbv zeta. simpl.
  assert (Ht : forall x, JS.truthy (drop_empty x) = JS.truthy x).
  { intros [[|c s]|]; reflexivity. }
  assert (Hp : forall x, (if JS.truthy x then JS.tpl (drop_empty x) else "all") =
                         (if JS.truthy x then JS.tpl x else "all")).
  { intros [[|c s]|]; reflexivity. }
  assert (Hn : forall x dflt,
                 (if JS.truthy x then JS.parseInt (JS.tpl (drop_empty x)) else dflt) =
                 (if JS.truthy x then JS.parseInt (JS.tpl x) else dflt)).
  { intros [[|c s]|] dflt; reflexivity. }
  assert (Hq : forall x, default EmptyString (drop_empty x) = default EmptyString x).
  { intros [[|c s]|]; reflexivity. }
  rewrite !Ht, Hp, !Hn, Hq. reflexivity.
Qed.

(** X18: host resolution gives a configured entry, whose host is the
    annotation or else is the first entry while no entry has that host;
    it gives none only when no entry is configured. *)
Theorem serviceConfig_resolves (h : option string) (cfgs : list JiraConfig) :
  (serviceConfig_post h cfgs = None <-> cfgs = []) /\
  (forall c, serviceConfig_post h cfgs = Some c ->
     In c cfgs /\
     (h = Some (host c) \/
      (head cfgs = Some c /\ Forall (fun c' => h <> Some (host c')) cfgs))).
Proof.
  unfold serviceConfig_post. split.
  - split.
    + destruct (List.find _ cfgs) as [c|]; [discriminate|].
      destruct cfgs; [reflexivity | discriminate].
    + intros ->. reflexivity.
  - intros c.
    destruct (List.find (fun hostConfig => bool_decide (h = Some (host hostConfig))) cfgs)
      as [c'|] eqn:Hfind.
    + intros H. inversion H; subst c'.
      apply List.find_some in Hfind as [Hin Hdec].
      split; [exact Hin|]. left. apply bool_decide_eq_true in Hdec. exact Hdec.
    + intros H. destruct cfgs as [|c0 cfgs]; [discriminate|].
      inversion H; subst c0. split; [left; reflexivity|]. right.
      split; [reflexivity|]. apply Forall_forall. intros x Hx.
      apply list_elem_of_In in Hx.
      pose proof (List.find_none _ _ Hfind x Hx) as Hdec.
      apply bool_decide_eq_false in Hdec. exact Hdec.
Qed.

(** ** The reference the page builds and the name the router reads *)

Lemma map_chars_append f (a b : string) :
  JS.map_chars f (a +:+ b) = JS.map_chars f a +:+ JS.map_chars f b.
Proof. induction a as [|c a IH]; simpl; [reflexivity | rewrite IH; reflexivity]. Qed.

Lemma lower_keeps_slash (c : ascii) : not_slash (JS.lower_ascii c) = not_slash c.
Proof. destruct c as [[] [] [] [] [] [] [] []]; reflexivity. Qed.

Lemma toLowerCase_slash_free (s : string) :
  all_chars not_slash (JS.toLowerCase s) = all_chars not_slash s.
Proof.
  induction s as [|c s IH]; simpl; [reflexivity|].
  rewrite lower_keeps_slash. unfold JS.toLowerCase in IH. rewrite IH. reflexivity.
Qed.

Lemma rev_app_rev_app (a b c : string) :
  String.rev_app (String.rev_app a b) c = String.rev_app b (a +:+ c).
Proof.
  revert b c. induction a as [|x a IH]; intros b c; simpl; [reflexivity|].
  rewrite IH. reflexivity.
Qed.

Lemma append_empty (a : string) : a +:+ EmptyString = a.
Proof.
  induction a as [|c a IH]; [reflexivity|].
  change (String c (a +:+ EmptyString) = String c a). rewrite IH. reflexivity.
Qed.

Lemma string_append_assoc (a b c : string) : a +:+ b +:+ c = (a +:+ b) +:+ c.
Proof.
  induction a as [|x a IH]; [reflexivity|].
  change (String x (a +:+ b +:+ c) = String x ((a +:+ b) +:+ c)). rewrite IH. reflexivity.
Qed.

Lemma rev_rev_app (a : string) : String.rev (String.rev_app a EmptyString) = a.
Proof. unfold String.rev. rewrite rev_app_rev_app. exact (append_empty a). Qed.

Lemma split_go_piece (cur a : string) :
  all_chars not_slash a = true ->
  JS.split_go "/" cur a = [String.rev (String.rev_app a cur)].
Proof.
  revert cur. induction a as [|c a IH]; intros cur H; simpl in *; [reflexivity|].
  apply andb_true_iff in H as [Hc Ha]. unfold not_slash in Hc.
  apply negb_true_iff in Hc. rewrite Hc. apply IH. exact Ha.
Qed.

Lemma split_go_first (cur a rest : string) :
  all_chars not_slash a = true ->
  JS.split_go "/" cur (a +:+ String "/" rest) =
  String.rev (String.rev_app a cur) :: JS.split_go "/" EmptyString rest.
Proof.
  revert cur. induction a as [|c a IH]; intros cur H; simpl in *; [reflexivity|].
  apply andb_true_iff in H as [Hc Ha]. unfold not_slash in Hc.
  apply negb_true_iff in Hc. rewrite Hc. apply IH. exact Ha.
Qed.

Lemma split_two (a b : string) :
  all_chars not_slash a = true ->
  all_chars not_slash b = true ->
  JS.split "/" (a +:+ "/" +:+ b) = [a; b].
Proof.
  intros Ha Hb. unfold JS.split.
  change (a +:+ "/" +:+ b) with (a +:+ String "/" b).
  rewrite (split_go_first EmptyString a b Ha), (split_go_piece EmptyString b Hb).
  rewrite !rev_rev_app. reflexivity.
Qed.

(** X19: for an entity whose kind, namespace and name hold no slash, the
    project reference the page builds is read back by the router as the
    entity's name in lower case: that name is what the subject of the
    notification mail ends with. *)
Theorem projectEntity_name entity :
  all_chars not_slash (kind entity) = true ->
  all_chars not_slash (JS.tpl (namespace (metadata entity))) = true ->
  all_chars not_slash (name (metadata entity)) = true ->
  JS.second_segment (Some (projectEntity entity)) =
    Some (JS.toLowerCase (name (metadata entity))) /\
  (forall label r,
     projectId r = Some (projectEntity entity) ->
     mailSubject label r =
       JS.tpl (tag r) +:+ " - " +:+ label +:+ " reported for " +:+
       JS.toLowerCase (name (metadata entity))).
Proof.
  intros Hk Hns Hn.
  assert (Hseg : JS.second_segment (Some (projectEntity entity)) =
                 Some (JS.toLowerCase (name (metadata entity)))).
  { unfold JS.second_segment, projectEntity, JS.toLowerCase.
    rewrite !map_chars_append.
    change (JS.map_chars JS.lower_ascii "/") with "/".
    rewrite (string_append_assoc (JS.map_chars JS.lower_ascii ":")),
            (string_append_assoc (JS.map_chars JS.lower_ascii (kind entity))).
    rewrite (split_two
               (JS.map_chars JS.lower_ascii (kind entity) +:+
                JS.map_chars JS.lower_ascii ":" +:+
                JS.map_chars JS.lower_ascii (JS.tpl (namespace (metadata entity))))
               (JS.map_chars JS.lower_ascii (name (metadata entity)))).
    - reflexivity.
    - rewrite !all_chars_append.
      fold (JS.toLowerCase (kind entity)).
      fold (JS.toLowerCase (JS.tpl (namespace (metadata entity)))).
      rewrite !toLowerCase_slash_free, Hk, Hns. reflexivity.
    - fold (JS.toLowerCase (name (metadata entity))).
      rewrite toLowerCase_slash_free. exact Hn. }
  split; [exact Hseg|].
  intros label r Hr. unfold mailSubject. rewrite Hr, Hseg. reflexivity.
Qed.

Lemma projectEntity_name_witness :
  JS.second_segment (Some (projectEntity (Sample.component None))) = Some "example".
Proof.
  refine (proj1 (projectEntity_name (Sample.component None) _ _ _)); reflexivity.
Defined.

(** ** Submission: a catalog that fails *)

(** X20: when the catalog lookup of the project fails, a submission with
    a valid summary ends there: the handler throws the catalog's error,
    nothing is stored and the handler sends no response of its own. *)
Theorem post_catalog_failure env req d e :
  summary_empty (req_body req) = false ->
  getEntityByRef env (projectId (req_body req)) = Fails e ->
  run (post_root env req) d =
    (Threw e, mkWorld d None [CatalogLookup (projectId (req_body req))]).
Proof.
  intros Hs Hcat.
  pose proof (post_root_cases env req d) as Hc.
  remember (run (post_root env req) d) as out eqn:Hout.
  destruct Hc as [Hs' | e' Hs' Hcat' | entityRef Hs' Hcat' Hn failed
                  | entityRef id Hs' Hcat' Hn row]; try congruence.
Qed.

Lemma post_catalog_failure_witness :
  run (post_root Sample.jira_env
         (mkPost None (mkFeedback None (Some "Broken") None None None None None None
                         None None None None))) ∅ =
    (Threw (TypeError "entity reference is undefined"), mkWorld ∅ None [CatalogLookup None]).
Proof.
  apply post_catalog_failure; reflexivity.
Defined.

(** ** Submission: the link in the ticket *)

Lemma jiraDescription_links d0 jiraUsername reporterEmail appTitle label route r :
  String.prefix d0 (jiraDescription d0 jiraUsername reporterEmail appTitle label route r) = true /\
  JS.includes ("?id=" +:+ JS.tpl (feedbackId r) +:+ "]")
    (jiraDescription d0 jiraUsername reporterEmail appTitle label route r) = true.
Proof.
  unfold jiraDescription. split; [apply prefix_append|].
  do 13 apply includes_append. apply includes_same.
Qed.

Lemma afterResponse_ticket_links env anns label route r :
  steps (ticket_links r) (afterResponse env anns label route r).
Proof.
  unfold afterResponse, jiraBranch. steps_tac; simpl; auto.
  eexists. split; [eassumption|]. apply jiraDescription_links.
Qed.

(** X21: the description a ticket is created with begins with the
    description of the stored record (the long summary in front of it,
    when that was moved there) and holds the link back to the feedback,
    whose [?id=] is the id the store gave to the record. *)
Theorem post_ticket_links_back env req d h tok pk sm dsc tg ft u :
  In (CreateTicket h tok pk sm dsc tg ft u) (trace (snd (run (post_root env req) d))) ->
  exists e id d0,
    getEntityByRef env (projectId (req_body req)) = Ok (Some e) /\
    newFeedbackId env d (prepared env req (Some e)) = Some id /\
    description (prepared env req (Some e)) = Some d0 /\
    String.prefix d0 dsc = true /\
    JS.includes ("?id=" +:+ id +:+ "]") dsc = true.
Proof.
  intros Hin.
  destruct (post_after_events (fun _ => ticket_links) env req d _
              (fun anns r label route => afterResponse_ticket_links env anns label route r)
              Hin eq_refl eq_refl) as [Heq | (e & anns & id & Hcat & Ha & Hn & HP)];
    [discriminate|].
  destruct HP as (d0 & Hd & Hpre & Hinc).
  exists e, id, d0. auto.
Qed.

Lemma post_ticket_links_back_witness :
  exists e id d0,
    getEntityByRef Sample.jira_env (projectId (req_body Sample.issue)) = Ok (Some e) /\
    newFeedbackId Sample.jira_env ∅ (prepared Sample.jira_env Sample.issue (Some e)) = Some id /\
    description (prepared Sample.jira_env Sample.issue (Some e)) = Some d0 /\
    String.prefix d0
      ("It fails" +:+ JS.nl +:+ JS.nl +:+ JS.cr +:+ JS.nl +:+
       "*Submitted from Test App*" +:+ JS.nl +:+
       "[Issue link|http://localhost:3000/catalog/default/Component/example/feedback?id=fb-1]")
      = true /\
    JS.includes ("?id=" +:+ id +:+ "]")
      ("It fails" +:+ JS.nl +:+ JS.nl +:+ JS.cr +:+ JS.nl +:+
       "*Submitted from Test App*" +:+ JS.nl +:+
       "[Issue link|http://localhost:3000/catalog/default/Component/example/feedback?id=fb-1]")
      = true.
Proof.
  eapply (post_ticket_links_back Sample.jira_env Sample.issue ∅
            "https://jira.corp" "token-2" (Some "proj-key") (Some "Broken")
            ("It fails" +:+ JS.nl +:+ JS.nl +:+ JS.cr +:+ JS.nl +:+
             "*Submitted from Test App*" +:+ JS.nl +:+
             "[Issue link|http://localhost:3000/catalog/default/Component/example/feedback?id=fb-1]")
            "needs-work" (Some "ISSUE") (Some "John Doe")).
  vm_compute. do 5 right. left. reflexivity.
Defined.
